(** * Buscador de cafés: a shallow embedding of [app/logic.py], [app/main.py]
    and [app/settings.py], and the properties of the specification checked
    against it.

    Conventions of the embedding.
    - A Python [str] is a list of Unicode code points ([pystr]); a cell of a
      data frame read with [dtype=str] is either missing ([NA], pandas' NaN)
      or a string.
    - A finite Python [float] is represented by the rational number it
      denotes; comparisons are exact, as they are on floats.  The decimal
      literals of the source ([0.1], [10.0], [0.75], ...) denote their
      decimal values.  Parsing text to floats, the geodesic distance and the
      rendering of floats as text belong to pandas, geopy and Python and are
      parameters of the development.
    - Exceptions are values of [res]; code that reads the clock, the network,
      the random generator or the process-wide cache lives in the monad [M]
      of state transformers over [World] that may raise. *)

From Stdlib Require Import QArith String Ascii Sorting.Sorted Sorting.Permutation.
From stdpp Require Import base option list gmap.

Local Open Scope N_scope.

(** ** Python strings *)

Definition pystr := list N.

Definition py (s : string) : pystr := List.map N_of_ascii (list_ascii_of_string s).

Inductive cell : Type :=
| NA
| Str (s : pystr).

(** [pd.isna] on a cell. *)
Definition isna (v : cell) : bool :=
  match v with NA => true | Str _ => false end.

(** [Series.fillna(s)] on one cell. *)
Definition fillna (s : pystr) (v : cell) : cell :=
  match v with NA => Str s | Str _ => v end.

(** [str(valor)]: the missing value prints as "nan". *)
Definition str_of (v : cell) : pystr :=
  match v with NA => py "nan" | Str s => s end.

Definition is_ascii (c : N) : bool := c <? 128.

(** The code points Python treats as whitespace, in [str.strip], [str.split]
    and the regular expression class [\s] on [str] patterns. *)
Definition is_space (c : N) : bool :=
  ((9 <=? c) && (c <=? 13)) || ((28 <=? c) && (c <=? 32))
  || (c =? 133) || (c =? 160) || (c =? 5760)
  || ((8192 <=? c) && (c <=? 8202))
  || (c =? 8232) || (c =? 8233) || (c =? 8239) || (c =? 8287) || (c =? 12288).

Definition is_upper_ascii (c : N) : bool := (65 <=? c) && (c <=? 90).
Definition is_lower_ascii (c : N) : bool := (97 <=? c) && (c <=? 122).
Definition is_digit_ascii (c : N) : bool := (48 <=? c) && (c <=? 57).

Definition ascii_lower (c : N) : N := if is_upper_ascii c then c + 32 else c.

Fixpoint lstrip (s : pystr) : pystr :=
  match s with
  | [] => []
  | c :: s' => if is_space c then lstrip s' else s
  end.

Definition rstrip (s : pystr) : pystr := rev (lstrip (rev s)).

(** [s.strip()] *)
Definition strip (s : pystr) : pystr := rstrip (lstrip s).

Definition pystr_eqb (a b : pystr) : bool := bool_decide (a = b).

(** [s.split()]: the maximal runs of non-whitespace, in order.  [cur] holds
    the run being read, reversed. *)
Fixpoint split_aux (cur : pystr) (s : pystr) : list pystr :=
  match s with
  | [] => match cur with [] => [] | _ => [rev cur] end
  | c :: s' =>
      if is_space c
      then match cur with [] => split_aux [] s' | _ => rev cur :: split_aux [] s' end
      else split_aux (c :: cur) s'
  end.

Definition split (s : pystr) : list pystr := split_aux [] s.

Fixpoint starts_with (p s : pystr) : bool :=
  match p, s with
  | [], _ => true
  | _ :: _, [] => false
  | a :: p', b :: s' => (a =? b) && starts_with p' s'
  end.

(** [p in s] on strings. *)
Fixpoint contains (p s : pystr) : bool :=
  starts_with p s || match s with [] => false | _ :: s' => contains p s' end.

(** [re.sub(r"[^a-zA-Z0-9\s]", " ", s)] *)
Definition keep_class (c : N) : bool :=
  is_lower_ascii c || is_upper_ascii c || is_digit_ascii c || is_space c.

Definition sub_no_alnum (s : pystr) : pystr :=
  List.map (fun c => if keep_class c then c else 32) s.

(** [re.sub(r"\s+", " ", s)]: every maximal run of whitespace becomes one
    space.  [in_ws] tells that the previous character was whitespace. *)
Fixpoint sub_spaces_aux (in_ws : bool) (s : pystr) : pystr :=
  match s with
  | [] => []
  | c :: s' =>
      if is_space c
      then (if in_ws then sub_spaces_aux true s' else 32 :: sub_spaces_aux true s')
      else c :: sub_spaces_aux false s'
  end.

Definition sub_spaces (s : pystr) : pystr := sub_spaces_aux false s.

(** [a or b] on lists: the first one unless it is empty. *)
Definition py_or {A} (a b : list A) : list A :=
  match a with [] => b | _ => a end.

(** An instance of the Unicode tables for the Latin-1 range: the
    compatibility decompositions of the code points up to U+00FF, as
    [unicodedata.normalize("NFKD", _)] gives them; a code point that is not
    in the table is left alone. *)
Definition nfkd_latin1 : list (N * pystr) :=
  [ (160, [32]);
    (168, [32; 776]);
    (170, [97]);
    (175, [32; 772]);
    (178, [50]);
    (179, [51]);
    (180, [32; 769]);
    (181, [956]);
    (184, [32; 807]);
    (185, [49]);
    (186, [111]);
    (188, [49; 8260; 52]);
    (189, [49; 8260; 50]);
    (190, [51; 8260; 52]);
    (192, [65; 768]);
    (193, [65; 769]);
    (194, [65; 770]);
    (195, [65; 771]);
    (196, [65; 776]);
    (197, [65; 778]);
    (199, [67; 807]);
    (200, [69; 768]);
    (201, [69; 769]);
    (202, [69; 770]);
    (203, [69; 776]);
    (204, [73; 768]);
    (205, [73; 769]);
    (206, [73; 770]);
    (207, [73; 776]);
    (209, [78; 771]);
    (210, [79; 768]);
    (211, [79; 769]);
    (212, [79; 770]);
    (213, [79; 771]);
    (214, [79; 776]);
    (217, [85; 768]);
    (218, [85; 769]);
    (219, [85; 770]);
    (220, [85; 776]);
    (221, [89; 769]);
    (224, [97; 768]);
    (225, [97; 769]);
    (226, [97; 770]);
    (227, [97; 771]);
    (228, [97; 776]);
    (229, [97; 778]);
    (231, [99; 807]);
    (232, [101; 768]);
    (233, [101; 769]);
    (234, [101; 770]);
    (235, [101; 776]);
    (236, [105; 768]);
    (237, [105; 769]);
    (238, [105; 770]);
    (239, [105; 776]);
    (241, [110; 771]);
    (242, [111; 768]);
    (243, [111; 769]);
    (244, [111; 770]);
    (245, [111; 771]);
    (246, [111; 776]);
    (249, [117; 768]);
    (250, [117; 769]);
    (251, [117; 770]);
    (252, [117; 776]);
    (253, [121; 769]);
    (255, [121; 776]) ].

Fixpoint buscar_descomposicion (c : N) (tabla : list (N * pystr)) : option pystr :=
  match tabla with
  | [] => None
  | (k, d) :: resto => if c =? k then Some d else buscar_descomposicion c resto
  end.

Definition nfkd_es (c : N) : pystr :=
  match buscar_descomposicion c nfkd_latin1 with
  | Some d => d
  | None => [c]
  end.

Definition lower_es (s : pystr) : pystr :=
  List.map (fun c => if (192 <=? c) && (c <=? 222) && negb (c =? 215)
                     then c + 32 else ascii_lower c) s.

(** Generic insertion sort, used to instantiate pandas' [sort_values] where a
    concrete sorting function is needed. *)
Fixpoint insert_by {A} (le : A -> A -> bool) (x : A) (l : list A) : list A :=
  match l with
  | [] => [x]
  | y :: l' => if le x y then x :: l else y :: insert_by le x l'
  end.

Fixpoint isort_by {A} (le : A -> A -> bool) (l : list A) : list A :=
  match l with
  | [] => []
  | x :: l' => insert_by le x (isort_by le l')
  end.

(** ** Floats *)

Inductive pyfloat : Type :=
| FNaN
| FInf (neg : bool)
| Fin (q : Q).

Definition is_nan (x : pyfloat) : bool :=
  match x with FNaN => true | _ => false end.

(** [a <= b] on floats: false as soon as one side is NaN. *)
Definition fle (a b : pyfloat) : bool :=
  match a, b with
  | FNaN, _ => false
  | _, FNaN => false
  | FInf true, _ => true
  | _, FInf false => true
  | Fin x, Fin y => Qle_bool x y
  | _, _ => false
  end.

Definition Qlt_bool (a b : Q) : bool := negb (Qle_bool b a).

Definition coords : Type := pyfloat * pyfloat.

(** ** Settings ([app/settings.py]) *)

Definition SPREADSHEET_ID : pystr := py "10vUOhRr7IAXlRrkBphxEP4ApXYBgrnuxJq6G83GnfHI".

Definition GID_CAFES : list (pystr * pystr) :=
  [ (py "Mar del Plata", py "0");
    (py "Buenos Aires", py "1296176686");
    (py "La Plata", py "208452991");
    (py "C" ++ [243] ++ py "rdoba", py "1250014567");
    (py "Rosario", py "1691979590") ].

Definition sheet_url (gid : pystr) : pystr :=
  py "https://docs.google.com/spreadsheets/d/" ++ SPREADSHEET_ID
  ++ py "/gviz/tq?tqx=out:csv&gid=" ++ gid.

Definition CACHE_TTL : Q := 600.

(** [GID_CAFES[ciudad]], [None] when [ciudad not in GID_CAFES]. *)
Fixpoint dict_get (k : pystr) (d : list (pystr * pystr)) : option pystr :=
  match d with
  | [] => None
  | (k', v) :: d' => if pystr_eqb k k' then Some v else dict_get k d'
  end.

Definition dict_keys (d : list (pystr * pystr)) : list pystr := List.map fst d.

(** ** Tables *)

(** A row as [pd.read_csv(..., dtype=str)] delivers it. *)
Record fila_csv : Type := {
  csv_CAFE : cell;
  csv_UBICACION : cell;
  csv_TOSTADOR : cell;
  csv_LAT : cell;
  csv_LONG : cell;
  csv_CIUDAD : cell
}.

(** A row once its coordinate columns are numeric. *)
Record cafe : Type := {
  CAFE : cell;
  UBICACION : cell;
  TOSTADOR : cell;
  LAT : pyfloat;
  LONG : pyfloat;
  CIUDAD : cell
}.

(** A row of [candidatos] in [geocodificar_desde_cafes]. *)
Record candidato : Type := {
  c_fila : cafe;
  UBICACION_NORM : pystr;
  CAFE_NORM : pystr;
  MATCH : nat
}.

(** A row of [cafes_calc] in [cafes_en_radio]. *)
Record cafe_dist : Type := {
  fila : cafe;
  DIST_KM : Q
}.

Record CafeOut : Type := {
  o_CAFE : pystr;
  o_UBICACION : pystr;
  o_TOSTADOR : pystr;
  o_LAT : pyfloat;
  o_LONG : pyfloat;
  o_CIUDAD : pystr;
  o_DIST_KM : option Q;
  o_DISTANCIA : option pystr;
  o_MAPS : option pystr
}.

Record BuscarCafesIn : Type := {
  b_ciudad : pystr;
  b_direccion : pystr;
  b_radio_km : Q;
  b_tostador : option pystr
}.

Record RecomendarIn : Type := {
  r_ciudad : pystr;
  r_direccion : pystr
}.

Record RecomendarOut : Type := {
  ro_cafe : CafeOut;
  fuente_geocoding : pystr
}.

Record CacheItem : Type := {
  ts : Q;
  df : list cafe
}.

Record DataCache : Type := {
  cafes_por_ciudad : gmap pystr CacheItem;
  todos_los_cafes : option CacheItem
}.

(** ** Exceptions *)

Inductive exn : Type :=
| ValueError (msg : pystr)
| IndexError
| HTTPException (status_code : Z) (detail : string)
| RequestValidationError
| ExternalError (code : nat).

Inductive res (A : Type) : Type :=
| Ok (a : A)
| Raise (e : exn).
Arguments Ok {A} a.
Arguments Raise {A} e.

(** ** Request validation ([BuscarCafesIn]) *)

(** [radio_km: float = Field(ge=0.1, le=10.0, default=2.0)] *)
Definition validar_radio_km (radio_km : option Q) : res Q :=
  match radio_km with
  | None => Ok 2%Q
  | Some r =>
      if Qle_bool (1 # 10) r && Qle_bool r 10 then Ok r
      else Raise RequestValidationError
  end.

Definition validar_BuscarCafesIn (ciudad direccion : pystr) (radio_km : option Q)
    (tostador : option pystr) : res BuscarCafesIn :=
  match validar_radio_km radio_km with
  | Ok r => Ok {| b_ciudad := ciudad; b_direccion := direccion;
                  b_radio_km := r; b_tostador := tostador |}
  | Raise e => Raise e
  end.

(** ** Coordinate cleaning (the body of [cargar_cafes]) *)

(** [Series.str.replace(",", ".", regex=False)] on one cell. *)
Definition str_replace_coma (v : cell) : cell :=
  match v with
  | NA => NA
  | Str s => Str (List.map (fun c => if c =? 44 then 46 else c) s)
  end.

Section Programa.

(** The Unicode tables of the interpreter: the compatibility decomposition of
    a code point ([unicodedata.normalize("NFKD", _)] on one character) and
    [str.lower] on strings that are not pure ASCII. *)
Variable nfkd : N -> pystr.
Variable unicode_lower : pystr -> pystr.

(** [s.lower()] *)
Definition lower (s : pystr) : pystr :=
  if forallb is_ascii s then List.map ascii_lower s else unicode_lower s.

(** [unicodedata.normalize("NFKD", s).encode("ascii", "ignore").decode("ascii")]:
    ASCII characters have no decomposition and are starters, so they keep
    their place; of the decomposition of any other character only its ASCII
    code points survive the encoding. *)
Definition nfkd_ascii (s : pystr) : pystr :=
  flat_map (fun c => if is_ascii c then [c] else List.filter is_ascii (nfkd c)) s.

Definition normalizar_texto (valor : cell) (fallback : pystr) : pystr :=
  if isna valor then fallback
  else
    let texto := strip (str_of valor) in
    if pystr_eqb texto [] || pystr_eqb (lower texto) (py "nan") then fallback
    else texto.

Definition sin_dato : pystr := py "Sin dato".
Definition sin_tostador : pystr := py "Sin tostador cargado".

Definition texto_normalizado (valor : cell) : pystr :=
  let texto := normalizar_texto valor [] in
  let texto := nfkd_ascii texto in
  let texto := sub_no_alnum (lower texto) in
  strip (sub_spaces texto).

(** [pd.to_numeric(_, errors="coerce")] on a string: the float it denotes,
    NaN when it denotes none. *)
Variable parse_float : pystr -> pyfloat.

Definition to_numeric (v : cell) : pyfloat :=
  match v with
  | NA => FNaN
  | Str s => parse_float s
  end.

Definition lat_en_rango (r : cafe) : bool :=
  fle (Fin (-90)) (LAT r) && fle (LAT r) (Fin 90).

Definition long_en_rango (r : cafe) : bool :=
  fle (Fin (-180)) (LONG r) && fle (LONG r) (Fin 180).

Definition coordenadas_numericas (r : fila_csv) : cafe :=
  {| CAFE := csv_CAFE r; UBICACION := csv_UBICACION r; TOSTADOR := csv_TOSTADOR r;
     LAT := to_numeric (str_replace_coma (csv_LAT r));
     LONG := to_numeric (str_replace_coma (csv_LONG r));
     CIUDAD := csv_CIUDAD r |}.

Definition con_ciudad (ciudad : pystr) (r : cafe) : cafe :=
  {| CAFE := CAFE r; UBICACION := UBICACION r; TOSTADOR := TOSTADOR r;
     LAT := LAT r; LONG := LONG r; CIUDAD := Str ciudad |}.

(** Lines 82 to 89 of [logic.py]. *)
Definition limpiar_coordenadas (ciudad : pystr) (filas : list fila_csv) : list cafe :=
  let df := List.map coordenadas_numericas filas in
  let df := List.filter (fun r => negb (is_nan (LAT r)) && negb (is_nan (LONG r))) df in
  let df := List.filter lat_en_rango df in
  let df := List.filter long_en_rango df in
  List.map (con_ciudad ciudad) df.

(** ** Local geocoding *)

(** [DataFrame.sort_values("MATCH", ascending=False)] and
    [DataFrame.sort_values("DIST_KM")].  pandas sorts with an unstable
    algorithm by default: the order among rows with equal keys is not
    fixed, so the sorting functions are parameters, constrained below to
    return a sorted rearrangement of their argument. *)
Variable sort_match_desc : list candidato -> list candidato.
Variable sort_dist_asc : list cafe_dist -> list cafe_dist.

Hypothesis sort_match_desc_perm :
  forall l, Permutation (sort_match_desc l) l.
Hypothesis sort_match_desc_sorted :
  forall l, Sorted (fun a b => (MATCH b <= MATCH a)%nat) (sort_match_desc l).
Hypothesis sort_dist_asc_perm :
  forall l, Permutation (sort_dist_asc l) l.
Hypothesis sort_dist_asc_sorted :
  forall l, Sorted (fun a b => (DIST_KM a <= DIST_KM b)%Q) (sort_dist_asc l).

Definition tokens_de (direccion_norm : pystr) : list pystr :=
  py_or (List.filter (fun t => (3 <=? length t)%nat) (split direccion_norm))
        (split direccion_norm).

(** The inner function [score] of [geocodificar_desde_cafes]. *)
Definition score (tokens : list pystr) (ubicacion_norm cafe_norm : pystr) : nat :=
  let texto := ubicacion_norm ++ py " " ++ cafe_norm in
  length (List.filter (fun tok => contains tok texto) tokens).

Definition candidato_de (tokens : list pystr) (r : cafe) : candidato :=
  let u := texto_normalizado (fillna [] (UBICACION r)) in
  let c := texto_normalizado (fillna [] (CAFE r)) in
  {| c_fila := r; UBICACION_NORM := u; CAFE_NORM := c; MATCH := score tokens u c |}.

Definition geocodificar_desde_cafes (direccion : pystr) (cafes_df : list cafe)
    : res (option coords) :=
  let direccion_norm := texto_normalizado (Str direccion) in
  if pystr_eqb direccion_norm [] then Ok None
  else
    let tokens := tokens_de direccion_norm in
    let candidatos := List.map (candidato_de tokens) cafes_df in
    match sort_match_desc candidatos with
    | [] => Raise IndexError
    | mejor :: _ =>
        if (MATCH mejor <=? 0)%nat then Ok None
        else Ok (Some (LAT (c_fila mejor), LONG (c_fila mejor)))
    end.

(** ** Spatial filter *)

(** [geodesic(a, b).km] of geopy. *)
Variable geodesic_km : coords -> coords -> Q.

(** The frame [cafes_en_radio] returns for a table that has rows. *)
Definition filas_en_radio (cafes_df : list cafe) (origen : coords) (radio_km : Q)
    : list cafe_dist :=
  let cafes_calc :=
    List.map (fun r => {| fila := r; DIST_KM := geodesic_km origen (LAT r, LONG r) |})
             cafes_df in
  List.filter (fun r => Qle_bool (DIST_KM r) radio_km) cafes_calc.

(** On a table without rows [DataFrame.apply(..., axis=1)] calls the function
    on a row of missing values to learn the shape of its result; [geodesic]
    rejects it, so [apply] answers a copy of the frame, not a column, and the
    assignment to ["DIST_KM"] raises [ValueError]. *)
Definition error_columna_dist : exn :=
  ValueError
    (py "Cannot set a DataFrame with multiple columns to the single column DIST_KM").

Definition cafes_en_radio (cafes_df : list cafe) (origen : coords) (radio_km : Q)
    : res (list cafe_dist) :=
  match cafes_df with
  | [] => Raise error_columna_dist
  | _ :: _ => Ok (filas_en_radio cafes_df origen radio_km)
  end.

(** The renderings of floats as text: [f"{int(km*1000)}"], [f"{km:.2f}"] and
    [f"{x}"]. *)
Variable fmt_metros : Q -> pystr.
Variable fmt_2f : Q -> pystr.
Variable fmt_float : pyfloat -> pystr.

Definition distancia_corta (km : Q) : pystr :=
  if Qlt_bool km 1 then fmt_metros km ++ py " m"
  else fmt_2f km ++ py " km".

Definition maps_url (lat long : pyfloat) : pystr :=
  py "https://www.google.com/maps/search/?api=1&query="
  ++ fmt_float lat ++ py "," ++ fmt_float long.

(** ** The world outside: clock, network, random generator *)

Variable Ext : Type.
(** [time.time()] *)
Variable time_time : Ext -> Q * Ext.
(** [pd.read_csv(path_or_url, dtype=str)] *)
Variable read_csv : pystr -> Ext -> res (list fila_csv) * Ext.
(** [ArcGIS(timeout=10).geocode(query)]: a location, [None], or an exception. *)
Variable arcgis_geocode : pystr -> Ext -> res (option coords) * Ext.
(** The draw behind [DataFrame.sample(n=1)]. *)
Variable randrange : nat -> Ext -> nat * Ext.

Record World : Type := {
  cache : DataCache;
  ext : Ext
}.

Definition M (A : Type) : Type := World -> res A * World.

Definition ret {A} (a : A) : M A := fun w => (Ok a, w).

Definition raise {A} (e : exn) : M A := fun w => (Raise e, w).

Definition bind {A B} (m : M A) (k : A -> M B) : M B :=
  fun w => match m w with
           | (Ok a, w') => k a w'
           | (Raise e, w') => (Raise e, w')
           end.

(** [try: m  except Exception: h] *)
Definition try_except {A} (m : M A) (h : exn -> M A) : M A :=
  fun w => match m w with
           | (Ok a, w') => (Ok a, w')
           | (Raise e, w') => h e w'
           end.

Definition lift_ext {A} (f : Ext -> A * Ext) : M A :=
  fun w => let '(a, e) := f (ext w) in (Ok a, {| cache := cache w; ext := e |}).

Definition lift_io {A} (f : Ext -> res A * Ext) : M A :=
  fun w => let '(r, e) := f (ext w) in (r, {| cache := cache w; ext := e |}).

Definition lift_res {A} (r : res A) : M A := fun w => (r, w).

Definition get_cache : M DataCache := fun w => (Ok (cache w), w).

Definition set_cache (c : DataCache) : M unit :=
  fun w => (Ok tt, {| cache := c; ext := ext w |}).

Notation "'let*' x ':=' m 'in' k" := (bind m (fun x => k))
  (at level 10, x pattern, m at level 100, k at level 200).

(** ** Cache and loaders *)

(** [DataCache.is_fresh]: the clock is read only for a present item. *)
Definition is_fresh (item : option CacheItem) : M bool :=
  match item with
  | None => ret false
  | Some it => let* t := lift_ext time_time in ret (Qlt_bool (t - ts it) CACHE_TTL)
  end.

Definition cargar_cafes (ciudad : pystr) : M (list cafe) :=
  match dict_get ciudad GID_CAFES with
  | None => raise (ValueError (py "Ciudad no v" ++ [225] ++ py "lida: " ++ ciudad))
  | Some gid =>
      let* c := get_cache in
      let cached := cafes_por_ciudad c !! ciudad in
      let* fresco := is_fresh cached in
      match fresco, cached with
      | true, Some it => ret (df it)
      | _, _ =>
          let* filas := try_except (lift_io (read_csv (sheet_url gid)))
                                   (fun _ => lift_io (read_csv (py "Cafes.csv"))) in
          let tabla := limpiar_coordenadas ciudad filas in
          let* t := lift_ext time_time in
          let* c := get_cache in
          let* _ := set_cache {| cafes_por_ciudad :=
                                   <[ciudad := {| ts := t; df := tabla |}]> (cafes_por_ciudad c);
                                 todos_los_cafes := todos_los_cafes c |} in
          ret tabla
      end
  end.

(** The loop of [cargar_todos_los_cafes]: [dfs] in the order of the append. *)
Fixpoint cargar_cada_ciudad (ciudades : list pystr) : M (list (list cafe)) :=
  match ciudades with
  | [] => ret []
  | ciudad :: resto =>
      let* d := try_except (let* t := cargar_cafes ciudad in ret (Some t))
                           (fun _ => ret None) in
      let* dfs := cargar_cada_ciudad resto in
      ret (match d with Some t => t :: dfs | None => dfs end)
  end.

Definition cargar_todos_los_cafes : M (list cafe) :=
  let* c := get_cache in
  let* fresco := is_fresh (todos_los_cafes c) in
  match fresco, todos_los_cafes c with
  | true, Some it => ret (df it)
  | _, _ =>
      let* dfs := cargar_cada_ciudad (dict_keys GID_CAFES) in
      let df_all := match dfs with [] => [] | _ => concat dfs end in
      let* t := lift_ext time_time in
      let* c := get_cache in
      let* _ := set_cache {| cafes_por_ciudad := cafes_por_ciudad c;
                             todos_los_cafes := Some {| ts := t; df := df_all |} |} in
      ret df_all
  end.

(** ** Geocoding *)

Definition geocodificar (direccion ciudad : pystr) : M (option coords) :=
  if pystr_eqb direccion [] || pystr_eqb (strip direccion) [] then ret None
  else
    let* loc := try_except
                  (lift_io (arcgis_geocode
                              (direccion ++ py ", " ++ ciudad ++ py ", Argentina")))
                  (fun _ => ret None) in
    match loc with
    | Some (latitude, longitude) => ret (Some (latitude, longitude))
    | None => ret None
    end.

Definition resolver_coordenadas (direccion ciudad : pystr) (cafes_df : list cafe)
    : M (option coords * option pystr) :=
  let* coords := geocodificar direccion ciudad in
  match coords with
  | Some c => ret (Some c, Some (py "online"))
  | None =>
      let* coords_local := lift_res (geocodificar_desde_cafes direccion cafes_df) in
      match coords_local with
      | Some c => ret (Some c, Some (py "local"))
      | None => ret (None, None)
      end
  end.

(** ** Endpoints ([app/main.py]) *)

Definition ciudad_invalida : exn := HTTPException 400 "Ciudad inválida".
Definition geocode_failed : exn :=
  HTTPException 404 "No se pudo geocodificar la dirección".
Definition no_candidates : exn :=
  HTTPException 404 "No hay cafés en 750 m para recomendar".

(** The filter of lines 116 and 117: a missing or empty [tostador], and
    "Todos", leave the table as it is; any other value keeps the rows whose
    [TOSTADOR] cell is that very string. *)
Definition tostador_es (t : pystr) (r : cafe_dist) : bool :=
  match TOSTADOR (fila r) with
  | NA => false
  | Str s => pystr_eqb s t
  end.

Definition filtrar_tostador (tostador : option pystr) (resultado : list cafe_dist)
    : list cafe_dist :=
  match tostador with
  | None => resultado
  | Some t =>
      if negb (pystr_eqb t []) && negb (pystr_eqb t (py "Todos"))
      then List.filter (tostador_es t) resultado
      else resultado
  end.

(** Lines 114 to 117: radius, sort by distance, roaster filter. *)
Definition resultado_busqueda (cafes_df : list cafe) (origen : coords)
    (payload : BuscarCafesIn) : res (list cafe_dist) :=
  match cafes_en_radio cafes_df origen (b_radio_km payload) with
  | Raise e => Raise e
  | Ok en_radio =>
      Ok (filtrar_tostador (b_tostador payload) (sort_dist_asc en_radio))
  end.

Definition salida_busqueda (r : cafe_dist) : CafeOut :=
  {| o_CAFE := normalizar_texto (CAFE (fila r)) sin_dato;
     o_UBICACION := normalizar_texto (UBICACION (fila r)) sin_dato;
     o_TOSTADOR := normalizar_texto (TOSTADOR (fila r)) sin_tostador;
     o_LAT := LAT (fila r);
     o_LONG := LONG (fila r);
     o_CIUDAD := str_of (CIUDAD (fila r));
     o_DIST_KM := Some (DIST_KM r);
     o_DISTANCIA := Some (distancia_corta (DIST_KM r));
     o_MAPS := Some (maps_url (LAT (fila r)) (LONG (fila r))) |}.

Definition buscar_cafes (payload : BuscarCafesIn) : M (list CafeOut) :=
  match dict_get (b_ciudad payload) GID_CAFES with
  | None => raise ciudad_invalida
  | Some _ =>
      let* cafes_df := cargar_cafes (b_ciudad payload) in
      let* (coords, _) := resolver_coordenadas (b_direccion payload)
                                                (b_ciudad payload) cafes_df in
      match coords with
      | None => raise geocode_failed
      | Some origen =>
          let* resultado := lift_res (resultado_busqueda cafes_df origen payload) in
          match resultado with
          | [] => ret []
          | _ => ret (List.map salida_busqueda resultado)
          end
      end
  end.

(** The request as FastAPI handles it: validation of the body, then the
    endpoint. *)
Definition post_buscar_cafes (ciudad direccion : pystr) (radio_km : option Q)
    (tostador : option pystr) : M (list CafeOut) :=
  let* payload := lift_res (validar_BuscarCafesIn ciudad direccion radio_km tostador) in
  buscar_cafes payload.

Definition salida_recomendada (ciudad : pystr) (r : cafe_dist) : CafeOut :=
  {| o_CAFE := normalizar_texto (CAFE (fila r)) sin_dato;
     o_UBICACION := normalizar_texto (UBICACION (fila r)) sin_dato;
     o_TOSTADOR := normalizar_texto (TOSTADOR (fila r)) sin_tostador;
     o_LAT := LAT (fila r);
     o_LONG := LONG (fila r);
     o_CIUDAD := ciudad;
     o_DIST_KM := Some (DIST_KM r);
     o_DISTANCIA := Some (distancia_corta (DIST_KM r));
     o_MAPS := Some (maps_url (LAT (fila r)) (LONG (fila r))) |}.

Definition radio_recomendacion : Q := 75 # 100.

(** [recomendados.sample(n=1).iloc[0]] on a table with first row [r0]: the
    row at a drawn position below the length. *)
Definition sample1 (r0 : cafe_dist) (resto : list cafe_dist) : M cafe_dist :=
  let* k := lift_ext (randrange (length (r0 :: resto))) in
  ret (nth (k mod length (r0 :: resto))%nat (r0 :: resto) r0).

Definition recomendar_cafe (payload : RecomendarIn) : M RecomendarOut :=
  match dict_get (r_ciudad payload) GID_CAFES with
  | None => raise ciudad_invalida
  | Some _ =>
      let* cafes_df := cargar_cafes (r_ciudad payload) in
      let* (coords, fuente) := resolver_coordenadas (r_direccion payload)
                                                     (r_ciudad payload) cafes_df in
      match coords with
      | None => raise geocode_failed
      | Some origen =>
          let* recomendados :=
            lift_res (cafes_en_radio cafes_df origen radio_recomendacion) in
          match recomendados with
          | [] => raise no_candidates
          | r0 :: resto =>
              let* recomendado := sample1 r0 resto in
              ret {| ro_cafe := salida_recomendada (r_ciudad payload) recomendado;
                     fuente_geocoding :=
                       match fuente with
                       | Some f => py_or f (py "desconocida")
                       | None => py "desconocida"
                       end |}
          end
      end
  end.

(** A character of an output of [texto_normalizado]. *)
Definition okc (c : N) : bool := is_lower_ascii c || is_digit_ascii c || (c =? 32).

(** No whitespace but single spaces; [prev] tells that a space precedes. *)
Fixpoint single_spaced (prev : bool) (s : pystr) : bool :=
  match s with
  | [] => true
  | c :: s' =>
      if is_space c then (c =? 32) && negb prev && single_spaced true s'
      else single_spaced false s'
  end.

(** ** Concrete collaborators

    A sheet, a table and simple stand-ins for the collaborators, on which
    the functions above can be run. *)

Definition ordenar_match_desc (l : list candidato) : list candidato :=
  isort_by (fun a b => (MATCH b <=? MATCH a)%nat) l.

Definition ordenar_dist_asc (l : list cafe_dist) : list cafe_dist :=
  isort_by (fun a b => Qle_bool (DIST_KM a) (DIST_KM b)) l.

Definition parse_float_demo (s : pystr) : pyfloat :=
  if pystr_eqb s (py "-38.0") then Fin (-38)
  else if pystr_eqb s (py "-38.01") then Fin (-3801 # 100)
  else if pystr_eqb s (py "-57.55") then Fin (-5755 # 100)
  else if pystr_eqb s (py "95.0") then Fin 95
  else FNaN.

(** About 111 km for each degree of latitude between the two points. *)
Definition geodesic_demo (a b : coords) : Q :=
  match a, b with
  | (Fin x, _), (Fin y, _) =>
      ((if Qle_bool x y then y - x else x - y) * 111)%Q
  | _, _ => 0%Q
  end.

Definition sin_formato {A} (_ : A) : pystr := [].

Definition reloj (e : nat) : Q * nat := (inject_Z (Z.of_nat e), S e).

Definition filas_demo : list fila_csv :=
  [ {| csv_CAFE := Str (py "Uno"); csv_UBICACION := Str (py "Colon 200");
       csv_TOSTADOR := NA; csv_LAT := Str (py "-38,0");
       csv_LONG := Str (py "-57,55"); csv_CIUDAD := NA |};
    {| csv_CAFE := Str (py "Dos"); csv_UBICACION := Str (py "Mitre 1500");
       csv_TOSTADOR := Str (py "Puerto Blest"); csv_LAT := Str (py "-38.01");
       csv_LONG := Str (py "-57.55"); csv_CIUDAD := NA |};
    {| csv_CAFE := Str (py "Tres"); csv_UBICACION := Str (py "Luro 3000");
       csv_TOSTADOR := NA; csv_LAT := Str (py "95.0");
       csv_LONG := Str (py "-57.55"); csv_CIUDAD := NA |};
    {| csv_CAFE := Str (py "Cuatro"); csv_UBICACION := NA;
       csv_TOSTADOR := NA; csv_LAT := Str (py "s/d");
       csv_LONG := NA; csv_CIUDAD := NA |} ].

Definition cafe_uno : cafe :=
  {| CAFE := Str (py "Uno"); UBICACION := Str (py "Colon 200"); TOSTADOR := NA;
     LAT := Fin (-38); LONG := Fin (-5755 # 100); CIUDAD := Str (py "Rosario") |}.

Definition cafe_dos : cafe :=
  {| CAFE := Str (py "Dos"); UBICACION := Str (py "Mitre 1500");
     TOSTADOR := Str (py "Puerto Blest");
     LAT := Fin (-3801 # 100); LONG := Fin (-5755 # 100);
     CIUDAD := Str (py "Rosario") |}.

Definition tabla_demo : list cafe := [cafe_uno; cafe_dos].

Definition hoja_demo (_ : pystr) (e : nat) : res (list fila_csv) * nat :=
  (Ok filas_demo, e).

(** A sheet with its header row and nothing else. *)
Definition hoja_vacia (_ : pystr) (e : nat) : res (list fila_csv) * nat :=
  (Ok [], e).

Definition arcgis_caido (_ : pystr) (e : nat) : res (option coords) * nat :=
  (Raise (ExternalError 1), e).

Definition primero (_ : nat) (e : nat) : nat * nat := (0%nat, e).

(** A provider that finds every address at the same point. *)
Definition arcgis_centro (_ : pystr) (e : nat) : res (option coords) * nat :=
  (Ok (Some (Fin (-38), Fin (-5755 # 100))), e).

(** No sheet can be read, neither remote nor local. *)
Definition sin_red (_ : pystr) (e : nat) : res (list fila_csv) * nat :=
  (Raise (ExternalError 0), e).

(** The sheet of Rosario cannot be read and there is no local file; the
    other sheets hold the rows of [filas_demo]. *)
Definition red_sin_rosario (url : pystr) (e : nat) : res (list fila_csv) * nat :=
  if pystr_eqb url (sheet_url (py "1691979590")) || pystr_eqb url (py "Cafes.csv")
  then (Raise (ExternalError 0), e)
  else (Ok filas_demo, e).

(** The score as the specification words it: the number of distinct query
    tokens that occur in the row's text. *)
Definition score_distinto (tokens : list pystr) (ubicacion_norm cafe_norm : pystr) : nat :=
  let texto := ubicacion_norm ++ py " " ++ cafe_norm in
  length (List.filter (fun tok => contains tok texto)
                      (List.nodup (fun a b : pystr => decide (a = b)) tokens)).

(** Both coordinates are finite and within range. *)
Definition coords_validas (r : cafe) : Prop :=
  exists a b, LAT r = Fin a /\ LONG r = Fin b
              /\ (-90 <= a)%Q /\ (a <= 90)%Q /\ (-180 <= b)%Q /\ (b <= 180)%Q.

(** Every per-city table held by the cache has valid coordinates. *)
Definition cache_limpio (c : DataCache) : Prop :=
  forall k it, cafes_por_ciudad c !! k = Some it -> Forall coords_validas (df it).

(** [cargas ciudades w dfs w']: loading the cities one after the other from
    the world [w] ends in [w'], and [dfs] are the tables of the cities whose
    load returned, in order; a city whose load raised contributes nothing. *)
Inductive cargas : list pystr -> World -> list (list cafe) -> World -> Prop :=
| cargas_nil w : cargas [] w [] w
| cargas_ok ciudad resto w t w1 dfs w2 :
    cargar_cafes ciudad w = (Ok t, w1) ->
    cargas resto w1 dfs w2 ->
    cargas (ciudad :: resto) w (t :: dfs) w2
| cargas_falla ciudad resto w e w1 dfs w2 :
    cargar_cafes ciudad w = (Raise e, w1) ->
    cargas resto w1 dfs w2 ->
    cargas (ciudad :: resto) w dfs w2.

(** ** The remaining endpoints ([app/main.py]) *)

(** [GET /ciudades] *)
Definition ciudades : list pystr := dict_keys GID_CAFES.

(** The record [get_cafes] builds for a row; the column [CIUDAD] is always
    present in a loaded table, so the default of [r.get] is not used. *)
Definition salida_listado (ciudad : pystr) (r : cafe) : CafeOut :=
  {| o_CAFE := normalizar_texto (CAFE r) sin_dato;
     o_UBICACION := normalizar_texto (UBICACION r) sin_dato;
     o_TOSTADOR := normalizar_texto (TOSTADOR r) sin_tostador;
     o_LAT := LAT r;
     o_LONG := LONG r;
     o_CIUDAD := str_of (CIUDAD r);
     o_DIST_KM := None;
     o_DISTANCIA := None;
     o_MAPS := None |}.

(** [GET /cafes] *)
Definition get_cafes (ciudad : pystr) : M (list CafeOut) :=
  match dict_get ciudad GID_CAFES with
  | None => raise ciudad_invalida
  | Some _ =>
      let* tabla := cargar_cafes ciudad in
      ret (List.map (salida_listado ciudad) tabla)
  end.

(** [df["CAFE"] == nombre] on one row. *)
Definition cafe_es (nombre : pystr) (r : cafe) : bool :=
  match CAFE r with
  | NA => false
  | Str s => pystr_eqb s nombre
  end.

Definition salida_por_nombre (r : cafe) : CafeOut :=
  {| o_CAFE := normalizar_texto (CAFE r) sin_dato;
     o_UBICACION := normalizar_texto (UBICACION r) sin_dato;
     o_TOSTADOR := normalizar_texto (TOSTADOR r) sin_tostador;
     o_LAT := LAT r;
     o_LONG := LONG r;
     o_CIUDAD := str_of (CIUDAD r);
     o_DIST_KM := None;
     o_DISTANCIA := None;
     o_MAPS := Some (maps_url (LAT r) (LONG r)) |}.

(** [GET /buscar-por-nombre] *)
Definition buscar_por_nombre (nombre : pystr) : M (list CafeOut) :=
  let* tabla := cargar_todos_los_cafes in
  match tabla with
  | [] => ret []
  | _ =>
      let resultados := List.filter (cafe_es nombre) tabla in
      match resultados with
      | [] => ret []
      | _ => ret (List.map salida_por_nombre resultados)
      end
  end.

(** ** Roasters

    [cargar_tostadores] reads and writes the slot [cache.tostadores] and
    nothing else of the cache; its state is that slot and the world
    outside.  It has no path that raises. *)

Definition GID_TOSTADORES : pystr := py "1590442133".

Record fila_tostador : Type := {
  t_TOSTADOR : cell;
  t_VARIEDADES : cell;
  t_DESCRIPCION : cell;
  t_INSTAGRAM : cell;
  t_CIUDAD : cell
}.

Record TostadorOut : Type := {
  to_TOSTADOR : pystr;
  to_VARIEDADES : pystr;
  to_DESCRIPCION : pystr;
  to_INSTAGRAM : pystr;
  to_CIUDAD : pystr
}.

Record CacheTostadores : Type := {
  ts_t : Q;
  df_t : list fila_tostador
}.

(** [pd.read_csv(url, dtype=str)] on the roasters' sheet. *)
Variable read_csv_tostadores : pystr -> Ext -> res (list fila_tostador) * Ext.

(** [re.compile(pat, re.IGNORECASE).search], as
    [Series.str.contains(pat, case=False, na=False)] uses it: the compiled
    test, or the error of a pattern that does not compile. *)
Variable re_search_icase : pystr -> res (pystr -> bool).

Definition recargar_tostadores (e : Ext)
    : list fila_tostador * (option CacheTostadores * Ext) :=
  let '(r, e1) := read_csv_tostadores (sheet_url GID_TOSTADORES) e in
  let tabla := match r with Ok filas => filas | Raise _ => [] end in
  let '(t, e2) := time_time e1 in
  (tabla, (Some {| ts_t := t; df_t := tabla |}, e2)).

Definition cargar_tostadores (s : option CacheTostadores * Ext)
    : list fila_tostador * (option CacheTostadores * Ext) :=
  match fst s with
  | None => recargar_tostadores (snd s)
  | Some it =>
      let '(t, e1) := time_time (snd s) in
      if Qlt_bool (t - ts_t it) CACHE_TTL then (df_t it, (Some it, e1))
      else recargar_tostadores e1
  end.

(** [str(r[col])] after [fillna("-")]. *)
Definition campo_o_guion (v : cell) : pystr := str_of (fillna (py "-") v).

Definition salida_tostador (r : fila_tostador) : TostadorOut :=
  {| to_TOSTADOR := campo_o_guion (t_TOSTADOR r);
     to_VARIEDADES := campo_o_guion (t_VARIEDADES r);
     to_DESCRIPCION := campo_o_guion (t_DESCRIPCION r);
     to_INSTAGRAM := campo_o_guion (t_INSTAGRAM r);
     to_CIUDAD := campo_o_guion (t_CIUDAD r) |}.

(** [GET /tostadores]: a missing or empty [ciudad] applies no filter. *)
Definition get_tostadores (ciudad : option pystr) (s : option CacheTostadores * Ext)
    : res (list TostadorOut) * (option CacheTostadores * Ext) :=
  let '(tabla, s') := cargar_tostadores s in
  match ciudad with
  | None => (Ok (List.map salida_tostador tabla), s')
  | Some [] => (Ok (List.map salida_tostador tabla), s')
  | Some pat =>
      match re_search_icase pat with
      | Raise e => (Raise e, s')
      | Ok contiene =>
          (Ok (List.map salida_tostador
                 (List.filter (fun r => contiene (campo_o_guion (t_CIUDAD r))) tabla)),
           s')
      end
  end.

(** ** Invariants of the cache *)

(** A row of the table of [ciudad]: valid coordinates, stamped with it. *)
Definition fila_de (ciudad : pystr) (r : cafe) : Prop :=
  coords_validas r /\ CIUDAD r = Str ciudad.

(** A row of the combined table: a row of some configured city. *)
Definition fila_configurada (r : cafe) : Prop :=
  exists ciudad, In ciudad (dict_keys GID_CAFES) /\ fila_de ciudad r.

Definition cache_integro (c : DataCache) : Prop :=
  (forall k it, cafes_por_ciudad c !! k = Some it -> Forall (fila_de k) (df it))
  /\ (forall it, todos_los_cafes c = Some it -> Forall fila_configurada (df it)).

(** A row's text for the local match contains one of the tokens. *)
Definition fila_coincide (tokens : list pystr) (r : cafe) : bool :=
  existsb (fun tok => contains tok
                        (texto_normalizado (fillna [] (UBICACION r)) ++ py " "
                         ++ texto_normalizado (fillna [] (CAFE r))))
          tokens.

(** Only the local file can be read. *)
Definition solo_local (url : pystr) (e : nat) : res (list fila_csv) * nat :=
  if pystr_eqb url (py "Cafes.csv") then (Ok filas_demo, e)
  else (Raise (ExternalError 0), e).

(** Concrete roasters' sheet and pattern test for running the roaster
    functions. *)
Definition tostadores_caido (_ : pystr) (e : nat) : res (list fila_tostador) * nat :=
  (Raise (ExternalError 2), e).

Definition sin_patron (_ : pystr) : res (pystr -> bool) := Raise (ExternalError 3).

(** * Properties *)

(** ** Characters and whitespace *)

Ltac nbool :=
  repeat match goal with
    | H : _ && _ = true |- _ => apply andb_true_iff in H; destruct H
    | H : _ || _ = true |- _ => apply orb_true_iff in H; destruct H
    | H : (_ <=? _) = true |- _ => apply N.leb_le in H
    | H : (_ <? _) = true |- _ => apply N.ltb_lt in H
    | H : (_ =? _) = true |- _ => apply N.eqb_eq in H
    | H : _ && _ = false |- _ => apply andb_false_iff in H; destruct H
    | H : _ || _ = false |- _ => apply orb_false_iff in H; destruct H
    | H : (_ <=? _) = false |- _ => apply N.leb_gt in H
    | H : (_ <? _) = false |- _ => apply N.ltb_ge in H
    | H : (_ =? _) = false |- _ => apply N.eqb_neq in H
    end.

Lemma is_space_32 : is_space 32 = true.
Proof. reflexivity. Qed.

Lemma ascii_lower_not_upper c : is_upper_ascii (ascii_lower c) = false.
Proof.
  unfold ascii_lower. destruct (is_upper_ascii c) eqn:E; [|exact E].
  unfold is_upper_ascii in *. nbool.
  apply andb_false_iff. right. apply N.leb_gt. lia.
Qed.

Lemma okc_ascii c : okc c = true -> is_ascii c = true.
Proof.
  unfold okc, is_lower_ascii, is_digit_ascii, is_ascii. intros H.
  apply N.ltb_lt. nbool; lia.
Qed.

Lemma okc_lower c : okc c = true -> ascii_lower c = c.
Proof.
  unfold okc, ascii_lower, is_lower_ascii, is_digit_ascii. intros H.
  destruct (is_upper_ascii c) eqn:E; [|reflexivity].
  unfold is_upper_ascii in E. nbool; lia.
Qed.

Lemma okc_keep c : okc c = true -> keep_class c = true.
Proof.
  unfold okc, keep_class. intros H. nbool.
  - rewrite H. reflexivity.
  - rewrite H. rewrite !orb_true_r. reflexivity.
  - subst c. reflexivity.
Qed.

Lemma okc_space c : okc c = true -> is_space c = true -> c = 32.
Proof.
  unfold okc, is_lower_ascii, is_digit_ascii, is_space. intros H1 H2.
  nbool; lia.
Qed.

(** ** [strip] *)

Lemma lstrip_idem s : lstrip (lstrip s) = lstrip s.
Proof.
  induction s as [|c s IH]; simpl; [reflexivity|].
  destruct (is_space c) eqn:E; [exact IH|]. simpl. rewrite E. reflexivity.
Qed.

Lemma lstrip_split s : exists p, s = p ++ lstrip s /\ forallb is_space p = true.
Proof.
  induction s as [|c s [p [Hp Hs]]]; simpl.
  - exists []. split; reflexivity.
  - destruct (is_space c) eqn:E.
    + exists (c :: p). simpl. rewrite E, Hs. split; [f_equal; exact Hp|reflexivity].
    + exists []. split; reflexivity.
Qed.

Lemma lstrip_snoc l c : is_space c = false -> exists l', lstrip (l ++ [c]) = l' ++ [c].
Proof.
  intros Hc. induction l as [|a l [l' IH]]; simpl.
  - rewrite Hc. exists []. reflexivity.
  - destruct (is_space a).
    + exists l'. exact IH.
    + exists (a :: l). reflexivity.
Qed.

Lemma rstrip_idem s : rstrip (rstrip s) = rstrip s.
Proof. unfold rstrip. rewrite rev_involutive, lstrip_idem. reflexivity. Qed.

Lemma rstrip_prefix s : exists q, s = rstrip s ++ q.
Proof.
  unfold rstrip. destruct (lstrip_split (rev s)) as [p [Hp _]].
  exists (rev p). rewrite <- rev_app_distr, <- Hp, rev_involutive. reflexivity.
Qed.

Lemma lstrip_rstrip s : lstrip s = s -> lstrip (rstrip s) = rstrip s.
Proof.
  destruct s as [|c s]; [reflexivity|]. simpl.
  destruct (is_space c) eqn:E.
  - intros H. exfalso.
    destruct (lstrip_split s) as [p [Hp _]].
    apply (f_equal (@length N)) in H. rewrite Hp in H at 2.
    simpl in H. rewrite length_app in H. lia.
  - intros _. unfold rstrip. simpl.
    destruct (lstrip_snoc (rev s) c E) as [l' Hl']. rewrite Hl'.
    rewrite rev_app_distr. simpl. rewrite E. reflexivity.
Qed.

Lemma strip_idem s : strip (strip s) = strip s.
Proof.
  unfold strip.
  rewrite (lstrip_rstrip (lstrip s) (lstrip_idem s)).
  apply rstrip_idem.
Qed.

Lemma Forall_lstrip (P : N -> Prop) s : Forall P s -> Forall P (lstrip s).
Proof.
  induction 1 as [|c s Hc Hs IH]; simpl; [constructor|].
  destruct (is_space c); [exact IH|constructor; assumption].
Qed.

Lemma Forall_strip (P : N -> Prop) s : Forall P s -> Forall P (strip s).
Proof.
  intros H. unfold strip, rstrip.
  apply Forall_rev, Forall_lstrip, Forall_rev, Forall_lstrip, H.
Qed.

(** ** Whitespace runs *)

Lemma single_spaced_weaken b s : single_spaced b s = true -> single_spaced false s = true.
Proof.
  destruct s as [|c s]; simpl; [reflexivity|].
  destruct (is_space c); [|auto].
  destruct (c =? 32), b; simpl; intros H; try discriminate; exact H.
Qed.

Lemma single_spaced_lstrip b b' s :
  single_spaced b s = true -> single_spaced b' (lstrip s) = true.
Proof.
  revert b. induction s as [|c s IH]; intros b; simpl; [reflexivity|].
  destruct (is_space c) eqn:E.
  - destruct (c =? 32), b; simpl; intros H; try discriminate; eapply IH; exact H.
  - intros H. simpl. rewrite E. exact H.
Qed.

Lemma single_spaced_prefix b p q :
  single_spaced b (p ++ q) = true -> single_spaced b p = true.
Proof.
  revert b. induction p as [|c p IH]; intros b; simpl; [reflexivity|].
  destruct (is_space c).
  - destruct (c =? 32), b; simpl; intros H; try discriminate; eapply IH; exact H.
  - apply IH.
Qed.

Lemma single_spaced_strip s :
  single_spaced false s = true -> single_spaced false (strip s) = true.
Proof.
  intros H. unfold strip.
  destruct (rstrip_prefix (lstrip s)) as [q Hq].
  apply (single_spaced_prefix false _ q). rewrite <- Hq.
  eapply single_spaced_lstrip; exact H.
Qed.

Lemma sub_spaces_aux_single b s : single_spaced b (sub_spaces_aux b s) = true.
Proof.
  revert b. induction s as [|c s IH]; intros b; simpl; [reflexivity|].
  destruct (is_space c) eqn:E.
  - destruct b; [apply IH|]. simpl. apply IH.
  - simpl. rewrite E. apply IH.
Qed.

Lemma sub_spaces_aux_fixed b s :
  single_spaced b s = true -> sub_spaces_aux b s = s.
Proof.
  revert b. induction s as [|c s IH]; intros b; simpl; [reflexivity|].
  destruct (is_space c).
  - destruct (N.eqb_spec c 32), b; simpl; intros H; try discriminate.
    subst c. f_equal. apply IH. exact H.
  - intros H. f_equal. apply IH. assumption.
Qed.

Lemma sub_spaces_aux_okc b s :
  Forall (fun c => is_lower_ascii c || is_digit_ascii c || is_space c = true) s ->
  Forall (fun c => okc c = true) (sub_spaces_aux b s).
Proof.
  intros H. revert b. induction H as [|c s Hc Hs IH]; intros b; simpl; [constructor|].
  destruct (is_space c) eqn:E.
  - destruct b; [apply IH|]. constructor; [reflexivity|apply IH].
  - constructor; [|apply IH]. cbv beta in Hc. unfold okc.
    rewrite ?E, orb_false_r in Hc. rewrite Hc. reflexivity.
Qed.

(** ** The normalizers *)

Lemma nfkd_ascii_is_ascii s : forallb is_ascii (nfkd_ascii s) = true.
Proof.
  unfold nfkd_ascii. induction s as [|c s IH]; simpl; [reflexivity|].
  rewrite forallb_app, IH, andb_true_r.
  destruct (is_ascii c) eqn:E; simpl; [rewrite E; reflexivity|].
  apply forallb_forall. intros x Hx. apply filter_In in Hx. apply Hx.
Qed.

Lemma nfkd_ascii_id s : forallb is_ascii s = true -> nfkd_ascii s = s.
Proof.
  unfold nfkd_ascii. induction s as [|c s IH]; simpl; [reflexivity|].
  intros H. apply andb_true_iff in H. destruct H as [Hc Hs].
  rewrite Hc. simpl. f_equal. apply IH, Hs.
Qed.

Lemma lower_ascii s : forallb is_ascii s = true -> lower s = List.map ascii_lower s.
Proof. intros H. unfold lower. rewrite H. reflexivity. Qed.

Lemma okc_forallb_ascii s :
  Forall (fun c => okc c = true) s -> forallb is_ascii s = true.
Proof.
  induction 1 as [|c s Hc Hs IH]; simpl; [reflexivity|].
  rewrite (okc_ascii c Hc), IH. reflexivity.
Qed.

Lemma lower_okc s : Forall (fun c => okc c = true) s -> lower s = s.
Proof.
  intros H. rewrite (lower_ascii s (okc_forallb_ascii s H)).
  induction H as [|c s Hc Hs IH]; simpl; [reflexivity|].
  rewrite (okc_lower c Hc), IH. reflexivity.
Qed.

Lemma sub_no_alnum_okc s : Forall (fun c => okc c = true) s -> sub_no_alnum s = s.
Proof.
  unfold sub_no_alnum. induction 1 as [|c s Hc Hs IH]; simpl; [reflexivity|].
  rewrite (okc_keep c Hc), IH. reflexivity.
Qed.

Lemma sub_no_alnum_lower_class s :
  Forall (fun c => is_lower_ascii c || is_digit_ascii c || is_space c = true)
         (sub_no_alnum (List.map ascii_lower s)).
Proof.
  unfold sub_no_alnum. induction s as [|c s IH]; simpl; constructor; [|exact IH].
  destruct (keep_class (ascii_lower c)) eqn:E; [|reflexivity].
  unfold keep_class in E. rewrite ascii_lower_not_upper, orb_false_r in E. exact E.
Qed.

(** The shape of every output of [texto_normalizado]: lower-case letters,
    digits and single spaces, none at either end. *)
Lemma texto_normalizado_forma v :
  Forall (fun c => okc c = true) (texto_normalizado v)
  /\ single_spaced false (texto_normalizado v) = true
  /\ strip (texto_normalizado v) = texto_normalizado v.
Proof.
  unfold texto_normalizado.
  rewrite (lower_ascii _ (nfkd_ascii_is_ascii _)).
  split; [|split].
  - apply Forall_strip, sub_spaces_aux_okc, sub_no_alnum_lower_class.
  - apply single_spaced_strip, sub_spaces_aux_single.
  - apply strip_idem.
Qed.

Lemma texto_normalizado_fijo d :
  Forall (fun c => okc c = true) d -> single_spaced false d = true -> strip d = d ->
  d <> py "nan" -> texto_normalizado (Str d) = d.
Proof.
  intros Hok Hss Hst Hnan.
  assert (Hn : normalizar_texto (Str d) [] = d).
  { unfold normalizar_texto. simpl. rewrite Hst, (lower_okc d Hok).
    unfold pystr_eqb. destruct d as [|c d]; [reflexivity|].
    rewrite (bool_decide_eq_false_2 (c :: d = [])) by discriminate.
    rewrite (bool_decide_eq_false_2 _ Hnan). reflexivity. }
  unfold texto_normalizado. rewrite Hn.
  rewrite (nfkd_ascii_id d (okc_forallb_ascii d Hok)).
  rewrite (lower_okc d Hok), (sub_no_alnum_okc d Hok).
  unfold sub_spaces. rewrite (sub_spaces_aux_fixed false d Hss). exact Hst.
Qed.

Lemma texto_normalizado_nan : texto_normalizado (Str (py "nan")) = [].
Proof. reflexivity. Qed.

Lemma normalizar_texto_fijo v f :
  normalizar_texto (Str f) f = f ->
  normalizar_texto (Str (normalizar_texto v f)) f = normalizar_texto v f.
Proof.
  intros Hf. destruct v as [|s]; [exact Hf|].
  unfold normalizar_texto at 2 3. simpl.
  destruct (pystr_eqb (strip s) [] || pystr_eqb (lower (strip s)) (py "nan")) eqn:E;
    [exact Hf|].
  unfold normalizar_texto. simpl. rewrite strip_idem, E. reflexivity.
Qed.

(** C2 (as amended).  [normalizar_texto] with the default fallback is
    idempotent on every value.  [texto_normalizado] is idempotent on every
    value whose match form is not the word "nan"; when the match form is
    "nan", tokenizing it again gives the empty string, because
    [normalizar_texto] takes the text "nan" for a missing value. *)
Theorem normalizadores_idempotentes (v : cell) :
  normalizar_texto (Str (normalizar_texto v sin_dato)) sin_dato
    = normalizar_texto v sin_dato
  /\ (texto_normalizado v <> py "nan" ->
      texto_normalizado (Str (texto_normalizado v)) = texto_normalizado v)
  /\ (texto_normalizado v = py "nan" ->
      texto_normalizado (Str (texto_normalizado v)) = []).
Proof.
  split; [|split].
  - apply normalizar_texto_fijo. reflexivity.
  - intros Hnan. destruct (texto_normalizado_forma v) as [H1 [H2 H3]].
    apply texto_normalizado_fijo; assumption.
  - intros ->. apply texto_normalizado_nan.
Qed.

(** ** Request validation *)

(** C1 (as amended).  The search request accepts exactly the radii of the
    closed interval from 0.1 to 10 km, rejects every other radius with a
    validation error, and uses 2.0 km when no radius is supplied. *)
Theorem radio_km_aceptado (ciudad direccion : pystr) (tostador : option pystr) (r : Q) :
  ((1 # 10 <= r /\ r <= 10)%Q ->
     validar_BuscarCafesIn ciudad direccion (Some r) tostador
     = Ok {| b_ciudad := ciudad; b_direccion := direccion;
             b_radio_km := r; b_tostador := tostador |})
  /\ (~ (1 # 10 <= r /\ r <= 10)%Q ->
     validar_BuscarCafesIn ciudad direccion (Some r) tostador
     = Raise RequestValidationError)
  /\ validar_BuscarCafesIn ciudad direccion None tostador
     = Ok {| b_ciudad := ciudad; b_direccion := direccion;
             b_radio_km := 2; b_tostador := tostador |}.
Proof.
  unfold validar_BuscarCafesIn, validar_radio_km.
  split; [|split; [|reflexivity]].
  - intros [H1 H2]. apply Qle_bool_iff in H1, H2. rewrite H1, H2. reflexivity.
  - intros H.
    destruct (Qle_bool (1 # 10) r) eqn:E1; [|reflexivity].
    destruct (Qle_bool r 10) eqn:E2; [|reflexivity].
    exfalso. apply H. split; apply Qle_bool_iff; assumption.
Qed.

(** ** Sorting *)

Lemma insert_by_perm {A} (le : A -> A -> bool) x l :
  Permutation (insert_by le x l) (x :: l).
Proof.
  induction l as [|y l IH]; simpl; [reflexivity|].
  destruct (le x y); [reflexivity|].
  rewrite IH. apply perm_swap.
Qed.

Lemma isort_by_perm {A} (le : A -> A -> bool) l : Permutation (isort_by le l) l.
Proof.
  induction l as [|x l IH]; simpl; [reflexivity|].
  rewrite insert_by_perm, IH. reflexivity.
Qed.

Section InsertionSorted.
Context {A : Type} (le : A -> A -> bool) (R : A -> A -> Prop).
Hypothesis le_R : forall a b, le a b = true -> R a b.
Hypothesis le_total : forall a b, le a b = false -> R b a.

Lemma insert_by_sorted x l : Sorted R l -> Sorted R (insert_by le x l).
Proof.
  induction 1 as [|y l Hs IH Hh]; simpl.
  - repeat constructor.
  - destruct (le x y) eqn:E.
    + constructor; [constructor; assumption|]. constructor. apply le_R, E.
    + constructor; [exact IH|].
      destruct l as [|z l]; simpl.
      * constructor. apply le_total, E.
      * destruct (le x z); constructor.
        -- apply le_total, E.
        -- inversion Hh; assumption.
Qed.

Lemma isort_by_sorted l : Sorted R (isort_by le l).
Proof.
  induction l as [|x l IH]; simpl; [constructor|].
  apply insert_by_sorted, IH.
Qed.
End InsertionSorted.

(** The first row of the descending sort is a row of the table with the
    largest [MATCH]. *)
Lemma mejor_es_maximo l m resto :
  sort_match_desc l = m :: resto ->
  In m l /\ forall c, In c l -> (MATCH c <= MATCH m)%nat.
Proof.
  intros E. pose proof (sort_match_desc_perm l) as P.
  pose proof (sort_match_desc_sorted l) as S. rewrite E in P, S.
  split.
  - apply (Permutation_in _ P). left. reflexivity.
  - intros c Hc. apply (Permutation_in _ (Permutation_sym P)) in Hc.
    destruct Hc as [<-|Hc]; [lia|].
    apply Sorted_StronglySorted in S; [|intros x y z; simpl; lia].
    apply StronglySorted_inv in S. destruct S as [_ S].
    rewrite List.Forall_forall in S. apply S, Hc.
Qed.

Lemma sort_match_desc_nil l : sort_match_desc l = [] -> l = [].
Proof.
  intros E. pose proof (sort_match_desc_perm l) as P. rewrite E in P.
  apply Permutation_nil in P. exact P.
Qed.

(** ** Local geocoding *)

Lemma geocodificar_desde_cafes_vacia direccion :
  texto_normalizado (Str direccion) <> [] ->
  geocodificar_desde_cafes direccion [] = Raise IndexError.
Proof.
  intros H. unfold geocodificar_desde_cafes, pystr_eqb.
  rewrite (bool_decide_eq_false_2 _ H). simpl.
  destruct (sort_match_desc []) eqn:E; [reflexivity|].
  pose proof (sort_match_desc_perm []) as P. rewrite E in P.
  apply Permutation_sym, Permutation_nil in P. discriminate.
Qed.

Lemma geocodificar_desde_cafes_sin_texto direccion cafes_df :
  texto_normalizado (Str direccion) = [] ->
  geocodificar_desde_cafes direccion cafes_df = Ok None.
Proof. intros H. unfold geocodificar_desde_cafes. rewrite H. reflexivity. Qed.

Lemma geocodificar_desde_cafes_mejor direccion cafes_df :
  cafes_df <> [] ->
  texto_normalizado (Str direccion) <> [] ->
  let tokens := tokens_de (texto_normalizado (Str direccion)) in
  exists mejor,
    In mejor cafes_df
    /\ (forall r, In r cafes_df ->
          (MATCH (candidato_de tokens r) <= MATCH (candidato_de tokens mejor))%nat)
    /\ geocodificar_desde_cafes direccion cafes_df
       = if (MATCH (candidato_de tokens mejor) <=? 0)%nat then Ok None
         else Ok (Some (LAT mejor, LONG mejor)).
Proof.
  intros Hne Hd tokens. unfold geocodificar_desde_cafes, pystr_eqb.
  rewrite (bool_decide_eq_false_2 _ Hd). fold tokens.
  destruct (sort_match_desc (List.map (candidato_de tokens) cafes_df)) as [|m resto] eqn:E.
  - apply sort_match_desc_nil in E. destruct cafes_df; [congruence|discriminate].
  - destruct (mejor_es_maximo _ _ _ E) as [Hin Hmax].
    apply in_map_iff in Hin. destruct Hin as [mejor [<- Hin]].
    exists mejor. split; [exact Hin|]. split; [|reflexivity].
    intros r Hr. apply Hmax, in_map, Hr.
Qed.

Lemma tokens_de_largos dn :
  (exists t, In t (split dn) /\ (3 <= length t)%nat) ->
  tokens_de dn = List.filter (fun t => (3 <=? length t)%nat) (split dn).
Proof.
  intros [t [Hin Hlen]]. unfold tokens_de, py_or.
  destruct (List.filter (fun t => (3 <=? length t)%nat) (split dn)) as [|a l] eqn:E;
    [|reflexivity].
  exfalso.
  assert (Hf : In t (List.filter (fun t => (3 <=? length t)%nat) (split dn))).
  { apply filter_In. split; [exact Hin|]. apply Nat.leb_le, Hlen. }
  rewrite E in Hf. destruct Hf.
Qed.

Lemma tokens_de_cortos dn :
  (forall t, In t (split dn) -> (length t < 3)%nat) ->
  tokens_de dn = split dn.
Proof.
  intros H. unfold tokens_de, py_or.
  destruct (List.filter (fun t => (3 <=? length t)%nat) (split dn)) as [|a l] eqn:E;
    [reflexivity|].
  exfalso. assert (Ha : In a (a :: l)) by (left; reflexivity).
  rewrite <- E in Ha. apply filter_In in Ha. destruct Ha as [Hin Hlen].
  apply Nat.leb_le in Hlen. specialize (H a Hin). lia.
Qed.

(** C3 (as amended).  On a table with at least one row, the local fallback
    takes as query tokens the tokens of the normalized address of length at
    least 3, or all of them when none is that long; the score of a row is
    the number of query tokens, each repetition of a token in the address
    counted, that occur in the row's normalized location, a space, and its
    normalized name; the answer is none when the address normalizes to
    nothing or the best score is 0, and otherwise the coordinates of a row
    of the table whose score is the largest. *)
Theorem geocodificar_desde_cafes_puntaje (direccion : pystr) (cafes_df : list cafe) :
  cafes_df <> [] ->
  let direccion_norm := texto_normalizado (Str direccion) in
  let tokens := tokens_de direccion_norm in
  let texto r := texto_normalizado (fillna [] (UBICACION r)) ++ py " "
                 ++ texto_normalizado (fillna [] (CAFE r)) in
  let puntaje r := length (List.filter (fun tok => contains tok (texto r)) tokens) in
  ((exists t, In t (split direccion_norm) /\ (3 <= length t)%nat) ->
     tokens = List.filter (fun t => (3 <=? length t)%nat) (split direccion_norm))
  /\ ((forall t, In t (split direccion_norm) -> (length t < 3)%nat) ->
     tokens = split direccion_norm)
  /\ (direccion_norm = [] -> geocodificar_desde_cafes direccion cafes_df = Ok None)
  /\ (direccion_norm <> [] ->
      exists mejor,
        In mejor cafes_df
        /\ (forall r, In r cafes_df -> (puntaje r <= puntaje mejor)%nat)
        /\ geocodificar_desde_cafes direccion cafes_df
           = if (puntaje mejor <=? 0)%nat then Ok None
             else Ok (Some (LAT mejor, LONG mejor))).
Proof.
  intros Hne direccion_norm tokens texto puntaje.
  split; [apply tokens_de_largos|].
  split; [apply tokens_de_cortos|].
  split; [apply geocodificar_desde_cafes_sin_texto|].
  intros Hd. exact (geocodificar_desde_cafes_mejor direccion cafes_df Hne Hd).
Qed.

(** ** Remote geocoding and the resolver *)

Lemma strip_espacios d : forallb is_space d = true -> strip d = [].
Proof.
  intros H. unfold strip.
  assert (E : lstrip d = []); [|rewrite E; reflexivity].
  induction d as [|c d IH]; simpl in *; [reflexivity|].
  apply andb_true_iff in H. destruct H as [Hc Hd]. rewrite Hc. apply IH, Hd.
Qed.

Lemma texto_normalizado_espacios d :
  forallb is_space d = true -> texto_normalizado (Str d) = [].
Proof.
  intros H. unfold texto_normalizado, normalizar_texto. simpl.
  rewrite (strip_espacios d H). reflexivity.
Qed.

Lemma geocodificar_no_lanza direccion ciudad w :
  exists r w', geocodificar direccion ciudad w = (Ok r, w').
Proof.
  unfold geocodificar.
  destruct (pystr_eqb direccion [] || pystr_eqb (strip direccion) []).
  - exists None, w. reflexivity.
  - unfold bind, try_except, lift_io, ret.
    destruct (arcgis_geocode _ (ext w)) as [[[[lat long]|]|e] x]; eauto.
Qed.

Lemma resolver_online direccion ciudad cafes_df w xy w' :
  geocodificar direccion ciudad w = (Ok (Some xy), w') ->
  resolver_coordenadas direccion ciudad cafes_df w
  = (Ok (Some xy, Some (py "online")), w').
Proof. intros H. unfold resolver_coordenadas, bind. rewrite H. reflexivity. Qed.

Lemma resolver_local direccion ciudad cafes_df w w' :
  geocodificar direccion ciudad w = (Ok None, w') ->
  resolver_coordenadas direccion ciudad cafes_df w
  = (match geocodificar_desde_cafes direccion cafes_df with
     | Ok (Some xy) => Ok (Some xy, Some (py "local"))
     | Ok None => Ok (None, None)
     | Raise e => Raise e
     end, w').
Proof.
  intros H. unfold resolver_coordenadas, bind. rewrite H. unfold lift_res.
  destruct (geocodificar_desde_cafes direccion cafes_df) as [[xy|]|e]; reflexivity.
Qed.

(** C9.  On a table with at least one row the local fallback returns, for
    every address, either none or the coordinates of a row of the table.
    On the empty table and an address whose normalized form is not empty it
    raises [IndexError], and so does [resolver_coordenadas] once the remote
    tier has answered none. *)
Theorem geocodificar_desde_cafes_total_solo_no_vacia :
  (forall direccion cafes_df, cafes_df <> [] ->
     geocodificar_desde_cafes direccion cafes_df = Ok None
     \/ exists r, In r cafes_df
                  /\ geocodificar_desde_cafes direccion cafes_df
                     = Ok (Some (LAT r, LONG r)))
  /\ (forall direccion, texto_normalizado (Str direccion) <> [] ->
       geocodificar_desde_cafes direccion [] = Raise IndexError)
  /\ (forall direccion ciudad w w',
       texto_normalizado (Str direccion) <> [] ->
       geocodificar direccion ciudad w = (Ok None, w') ->
       resolver_coordenadas direccion ciudad [] w = (Raise IndexError, w')).
Proof.
  split; [|split].
  - intros direccion cafes_df Hne.
    destruct (decide (texto_normalizado (Str direccion) = [])) as [E|E].
    + left. apply geocodificar_desde_cafes_sin_texto, E.
    + destruct (geocodificar_desde_cafes_mejor direccion cafes_df Hne E)
        as [mejor [Hin [_ Hr]]].
      rewrite Hr. destruct (_ <=? 0)%nat; [left; reflexivity|].
      right. exists mejor. split; [exact Hin|reflexivity].
  - apply geocodificar_desde_cafes_vacia.
  - intros direccion ciudad w w' Hd Hg.
    rewrite (resolver_local _ _ _ _ _ Hg).
    rewrite (geocodificar_desde_cafes_vacia direccion Hd). reflexivity.
Qed.

(** C6.  An empty or whitespace-only address resolves to (none, none)
    without any call to the provider.  [geocodificar] never raises: an
    exception of the provider and a not-found answer both give none.  When
    it gives coordinates the resolver tags them "online"; when it gives
    none the resolver consults the local fallback, tags its coordinates
    "local", and answers (none, none) when it has none either. *)
Theorem resolver_coordenadas_niveles :
  (forall direccion ciudad cafes_df w,
     forallb is_space direccion = true ->
     resolver_coordenadas direccion ciudad cafes_df w = (Ok (None, None), w))
  /\ (forall direccion ciudad w,
       exists r w', geocodificar direccion ciudad w = (Ok r, w'))
  /\ (forall direccion ciudad w r x,
       arcgis_geocode (direccion ++ py ", " ++ ciudad ++ py ", Argentina") (ext w) = (r, x) ->
       strip direccion <> [] ->
       geocodificar direccion ciudad w
       = (Ok (match r with Ok (Some xy) => Some xy | _ => None end),
          {| cache := cache w; ext := x |}))
  /\ (forall direccion ciudad cafes_df w xy w',
       geocodificar direccion ciudad w = (Ok (Some xy), w') ->
       resolver_coordenadas direccion ciudad cafes_df w
       = (Ok (Some xy, Some (py "online")), w'))
  /\ (forall direccion ciudad cafes_df w w',
       geocodificar direccion ciudad w = (Ok None, w') ->
       resolver_coordenadas direccion ciudad cafes_df w
       = (match geocodificar_desde_cafes direccion cafes_df with
          | Ok (Some xy) => Ok (Some xy, Some (py "local"))
          | Ok None => Ok (None, None)
          | Raise e => Raise e
          end, w')).
Proof.
  split; [|split; [|split; [|split]]].
  - intros direccion ciudad cafes_df w H.
    unfold resolver_coordenadas, bind, geocodificar.
    rewrite (strip_espacios direccion H).
    replace (pystr_eqb [] []) with true by reflexivity. rewrite orb_true_r.
    unfold ret, lift_res.
    rewrite (geocodificar_desde_cafes_sin_texto direccion cafes_df
               (texto_normalizado_espacios direccion H)).
    reflexivity.
  - apply geocodificar_no_lanza.
  - intros direccion ciudad w r x Hr Hs. unfold geocodificar, pystr_eqb.
    rewrite (bool_decide_eq_false_2 _ Hs), orb_false_r.
    destruct direccion as [|c d]; [exfalso; apply Hs; reflexivity|].
    rewrite (bool_decide_eq_false_2 (c :: d = [])) by discriminate.
    unfold bind, try_except, lift_io, ret. rewrite Hr.
    destruct r as [[[lat long]|]|e]; reflexivity.
  - apply resolver_online.
  - apply resolver_local.
Qed.

(** ** Spatial filter *)

Lemma filas_en_radio_exacto (cafes_df : list cafe) (origen : coords) (radio_km : Q) :
  (forall r d,
     In {| fila := r; DIST_KM := d |} (filas_en_radio cafes_df origen radio_km)
     <-> In r cafes_df /\ d = geodesic_km origen (LAT r, LONG r) /\ (d <= radio_km)%Q)
  /\ List.map fila (filas_en_radio cafes_df origen radio_km)
     = List.filter (fun r => Qle_bool (geodesic_km origen (LAT r, LONG r)) radio_km)
                   cafes_df.
Proof.
  unfold filas_en_radio. split.
  - intros r d. rewrite filter_In, in_map_iff. simpl. rewrite Qle_bool_iff. split.
    + intros [[r' [E Hin]] Hd]. inversion E; subst. auto.
    + intros [Hin [-> Hd]]. split; [exists r; auto|exact Hd].
  - induction cafes_df as [|r l IH]; simpl; [reflexivity|].
    destruct (Qle_bool _ radio_km); simpl; rewrite IH; reflexivity.
Qed.

(** C4.  On a table with at least one row, the rows [cafes_en_radio] returns
    are exactly the rows of the table whose distance from the origin is at
    most the radius, in the order of the table, each with that distance as
    [DIST_KM].  On a table without rows it returns nothing: it raises
    [ValueError]. *)
Theorem cafes_en_radio_exacto :
  (forall origen radio_km,
     cafes_en_radio [] origen radio_km = Raise error_columna_dist)
  /\ (forall cafes_df origen radio_km,
       cafes_df <> [] ->
       exists filas,
         cafes_en_radio cafes_df origen radio_km = Ok filas
         /\ (forall r d,
               In {| fila := r; DIST_KM := d |} filas
               <-> In r cafes_df /\ d = geodesic_km origen (LAT r, LONG r)
                   /\ (d <= radio_km)%Q)
         /\ List.map fila filas
            = List.filter
                (fun r => Qle_bool (geodesic_km origen (LAT r, LONG r)) radio_km)
                cafes_df).
Proof.
  split; [reflexivity|].
  intros cafes_df origen radio_km Hne.
  exists (filas_en_radio cafes_df origen radio_km). split.
  - destruct cafes_df; [congruence|reflexivity].
  - apply filas_en_radio_exacto.
Qed.

(** ** Coordinate cleaning and the loaders *)

Lemma fle_rango lo hi v :
  fle (Fin lo) v && fle v (Fin hi) = true
  <-> exists a, v = Fin a /\ (lo <= a)%Q /\ (a <= hi)%Q.
Proof.
  split.
  - destruct v as [|[|]|a]; simpl; try discriminate.
    intros H. apply andb_true_iff in H. destruct H as [H1 H2].
    exists a. rewrite <- !Qle_bool_iff. auto.
  - intros [a [-> [H1 H2]]]. simpl. apply andb_true_iff.
    rewrite !Qle_bool_iff. auto.
Qed.

Lemma coords_validas_rango r :
  coords_validas r <-> lat_en_rango r = true /\ long_en_rango r = true.
Proof.
  unfold coords_validas, lat_en_rango, long_en_rango. rewrite !fle_rango. split.
  - intros [a [b [Ha [Hb [H1 [H2 [H3 H4]]]]]]]. split; eauto.
  - intros [[a [Ha [H1 H2]]] [b [Hb [H3 H4]]]]. exists a, b. auto 10.
Qed.

Lemma coords_validas_con_ciudad ciudad r :
  coords_validas (con_ciudad ciudad r) <-> coords_validas r.
Proof. reflexivity. Qed.

Lemma limpiar_coordenadas_In ciudad filas c :
  In c (limpiar_coordenadas ciudad filas)
  <-> exists f, In f filas /\ c = con_ciudad ciudad (coordenadas_numericas f)
                /\ coords_validas (coordenadas_numericas f).
Proof.
  unfold limpiar_coordenadas. rewrite in_map_iff. split.
  - intros [r [<- Hr]]. rewrite !filter_In, in_map_iff in Hr.
    destruct Hr as [[[[f [<- Hf]] _] Hlat] Hlong].
    exists f. split; [exact Hf|]. split; [reflexivity|].
    apply coords_validas_rango. auto.
  - intros [f [Hf [-> Hv]]]. exists (coordenadas_numericas f).
    split; [reflexivity|]. apply coords_validas_rango in Hv as Hr.
    destruct Hr as [Hlat Hlong]. rewrite !filter_In, in_map_iff.
    repeat split; eauto.
    destruct Hv as [a [b [-> [-> _]]]]. reflexivity.
Qed.

Lemma limpiar_coordenadas_validas ciudad filas :
  Forall coords_validas (limpiar_coordenadas ciudad filas).
Proof.
  apply List.Forall_forall. intros c Hc. apply limpiar_coordenadas_In in Hc.
  destruct Hc as [f [_ [-> Hv]]]. apply coords_validas_con_ciudad, Hv.
Qed.

Lemma is_fresh_run item w :
  exists b w1, is_fresh item w = (Ok b, w1) /\ cache w1 = cache w
               /\ (b = true -> exists it, item = Some it).
Proof.
  destruct item as [it|]; simpl.
  - cbv [bind lift_ext ret]. destruct (time_time (ext w)) as [t x].
    eexists _, _. split; [reflexivity|]. split; [reflexivity|]. eauto.
  - exists false, w. split; [reflexivity|]. split; [reflexivity|]. discriminate.
Qed.

(** What a returning call of [cargar_cafes] did: it served the table the
    cache held for the city, or it cleaned freshly read rows and stored the
    outcome for the city. *)
Lemma cargar_cafes_ok ciudad w t w' :
  cargar_cafes ciudad w = (Ok t, w') ->
  (exists it, cafes_por_ciudad (cache w) !! ciudad = Some it /\ t = df it
              /\ cache w' = cache w)
  \/ (exists filas t0,
        t = limpiar_coordenadas ciudad filas
        /\ cache w'
           = {| cafes_por_ciudad :=
                  <[ciudad := {| ts := t0; df := t |}]> (cafes_por_ciudad (cache w));
                todos_los_cafes := todos_los_cafes (cache w) |}).
Proof.
  intros H.
  unfold cargar_cafes in H.
  destruct (dict_get ciudad GID_CAFES) as [gid|]; [|discriminate H].
  unfold bind at 1, get_cache in H. cbv beta iota in H. unfold bind at 1 in H.
  destruct (is_fresh_run (cafes_por_ciudad (cache w) !! ciudad) w)
    as [b [w1 [Hf [Hc Hb]]]].
  rewrite Hf in H. destruct b.
  - destruct (Hb eq_refl) as [it Hit]. rewrite Hit in H.
    inversion H; subst. left. eauto.
  - right. cbv beta iota in H.
    cbv [bind try_except lift_io lift_ext set_cache get_cache ret] in H.
    destruct (read_csv (sheet_url gid) (ext w1)) as [[filas|e] x1];
      [|cbn [ext cache] in H;
        destruct (read_csv (py "Cafes.csv") x1) as [[filas|e'] x2];
        [|discriminate H]];
      cbn [ext cache] in H;
      destruct (time_time _) as [t0 x3]; cbn [ext cache] in H;
      inversion H; subst; exists filas, t0; cbn [cache]; rewrite Hc;
      split; reflexivity.
Qed.

Lemma coords_validas_crudas f :
  coords_validas (coordenadas_numericas f)
  <-> exists slat slong a b,
        csv_LAT f = Str slat /\ csv_LONG f = Str slong
        /\ parse_float (List.map (fun c => if c =? 44 then 46 else c) slat) = Fin a
        /\ parse_float (List.map (fun c => if c =? 44 then 46 else c) slong) = Fin b
        /\ (-90 <= a)%Q /\ (a <= 90)%Q /\ (-180 <= b)%Q /\ (b <= 180)%Q.
Proof.
  unfold coords_validas, coordenadas_numericas. cbn [LAT LONG]. split.
  - intros [a [b [Ha [Hb H]]]].
    destruct (csv_LAT f) as [|slat]; [discriminate Ha|].
    destruct (csv_LONG f) as [|slong]; [discriminate Hb|].
    exists slat, slong, a, b. cbn in Ha, Hb. auto.
  - intros [slat [slong [a [b [-> [-> [Ha [Hb H]]]]]]]].
    exists a, b. cbn. auto.
Qed.

(** C5.  A row is in the cleaned table exactly when it comes from a row of
    the sheet whose latitude and longitude cells are both present and,
    parsed after the replacement of commas by points, are both finite, the
    latitude between -90 and 90 and the longitude between -180 and 180; it
    then carries the parsed values, the other cells as read and the city.
    A row with a missing coordinate cell, or one that does not parse or is
    out of range, is dropped.  Every table [cargar_cafes] returns has valid
    coordinates, from the sheet or from a cache that holds such tables, and
    the cache it leaves holds such tables. *)
Theorem limpieza_de_coordenadas (ciudad : pystr) :
  (forall filas c,
     In c (limpiar_coordenadas ciudad filas)
     <-> exists f slat slong a b,
           In f filas
           /\ csv_LAT f = Str slat /\ csv_LONG f = Str slong
           /\ parse_float (List.map (fun c => if c =? 44 then 46 else c) slat) = Fin a
           /\ parse_float (List.map (fun c => if c =? 44 then 46 else c) slong) = Fin b
           /\ (-90 <= a)%Q /\ (a <= 90)%Q /\ (-180 <= b)%Q /\ (b <= 180)%Q
           /\ c = {| CAFE := csv_CAFE f; UBICACION := csv_UBICACION f;
                     TOSTADOR := csv_TOSTADOR f; LAT := Fin a; LONG := Fin b;
                     CIUDAD := Str ciudad |})
  /\ (forall filas f,
       csv_LAT f = NA \/ csv_LONG f = NA ->
       ~ In (con_ciudad ciudad (coordenadas_numericas f))
            (limpiar_coordenadas ciudad filas))
  /\ (forall filas f,
       In (con_ciudad ciudad (coordenadas_numericas f))
          (limpiar_coordenadas ciudad filas) ->
       exists slat slong a b,
         csv_LAT f = Str slat /\ csv_LONG f = Str slong
         /\ parse_float (List.map (fun c => if c =? 44 then 46 else c) slat) = Fin a
         /\ parse_float (List.map (fun c => if c =? 44 then 46 else c) slong) = Fin b
         /\ (-90 <= a)%Q /\ (a <= 90)%Q /\ (-180 <= b)%Q /\ (b <= 180)%Q)
  /\ (forall w t w',
       cache_limpio (cache w) ->
       cargar_cafes ciudad w = (Ok t, w') ->
       Forall coords_validas t /\ cache_limpio (cache w')).
Proof.
  assert (Hdrop : forall filas f,
            In (con_ciudad ciudad (coordenadas_numericas f))
               (limpiar_coordenadas ciudad filas) ->
            coords_validas (coordenadas_numericas f)).
  { intros filas f Hin. apply limpiar_coordenadas_In in Hin.
    destruct Hin as [f' [_ [E Hv]]].
    change (coords_validas (con_ciudad ciudad (coordenadas_numericas f))).
    rewrite E. exact Hv. }
  split; [|split; [|split]].
  - intros filas c. rewrite limpiar_coordenadas_In. split.
    + intros [f [Hf [-> Hv]]]. apply coords_validas_crudas in Hv.
      destruct Hv as [slat [slong [a [b [Hl [Hg [Ha [Hb H]]]]]]]].
      exists f, slat, slong, a, b.
      repeat (split; [first [exact Hf | exact Hl | exact Hg | exact Ha | exact Hb
                            | apply H]|]).
      unfold con_ciudad, coordenadas_numericas. cbn. rewrite Hl, Hg. cbn.
      rewrite Ha, Hb. reflexivity.
    + intros [f [slat [slong [a [b [Hf [Hl [Hg [Ha [Hb [H1 [H2 [H3 [H4 ->]]]]]]]]]]]]]].
      exists f. split; [exact Hf|]. split.
      * unfold con_ciudad, coordenadas_numericas. cbn. rewrite Hl, Hg. cbn.
        rewrite Ha, Hb. reflexivity.
      * apply coords_validas_crudas. exists slat, slong, a, b. auto 10.
  - intros filas f Hna Hin. apply Hdrop, coords_validas_crudas in Hin.
    destruct Hin as [slat [slong [a [b [Hl [Hg _]]]]]].
    destruct Hna as [Hna|Hna]; congruence.
  - intros filas f Hin. apply coords_validas_crudas. exact (Hdrop filas f Hin).
  - intros w t w' Hinv H.
    destruct (cargar_cafes_ok ciudad w t w' H)
      as [[it [Hit [-> Hc]]]|[filas [t0 [-> Hc]]]].
    + split; [exact (Hinv ciudad it Hit)|]. rewrite Hc. exact Hinv.
    + split; [apply limpiar_coordenadas_validas|].
      rewrite Hc. intros k it. cbn [cafes_por_ciudad].
      rewrite lookup_insert. destruct (decide (ciudad = k)) as [_|_].
      * intros [= <-]. apply limpiar_coordenadas_validas.
      * apply Hinv.
Qed.

Lemma cargar_cada_ciudad_run ciudades w :
  exists dfs w', cargar_cada_ciudad ciudades w = (Ok dfs, w')
                 /\ cargas ciudades w dfs w'.
Proof.
  revert w. induction ciudades as [|ciudad resto IH]; intros w.
  - exists [], w. split; [reflexivity|constructor].
  - cbn [cargar_cada_ciudad]. unfold bind at 1. unfold try_except, bind at 1.
    destruct (cargar_cafes ciudad w) as [[t|e] w1] eqn:E; cbv [ret];
      destruct (IH w1) as [dfs [w2 [Hrun Hc]]]; unfold bind; rewrite Hrun.
    + exists (t :: dfs), w2. split; [reflexivity|].
      eapply cargas_ok; eassumption.
    + exists dfs, w2. split; [reflexivity|].
      eapply cargas_falla; eassumption.
Qed.

(** C8.  [cargar_todos_los_cafes] always returns.  When the combined table
    of the cache is fresh it returns that table and writes nothing.
    Otherwise it loads the configured cities one after the other, leaves
    out every city whose load raised, returns the concatenation of the
    tables of the others (the empty table when there is none) and stores it
    as the combined table of the cache. *)
Theorem cargar_todos_los_cafes_absorbe (w : World) :
  exists t w',
    cargar_todos_los_cafes w = (Ok t, w')
    /\ exists b w0,
        is_fresh (todos_los_cafes (cache w)) w = (Ok b, w0)
        /\ (b = true ->
            w' = w0 /\ exists it, todos_los_cafes (cache w) = Some it /\ t = df it)
        /\ (b = false ->
            exists dfs w1 t0,
              cargas (dict_keys GID_CAFES) w0 dfs w1
              /\ t = concat dfs
              /\ (dfs = [] -> t = [])
              /\ cache w'
                 = {| cafes_por_ciudad := cafes_por_ciudad (cache w1);
                      todos_los_cafes := Some {| ts := t0; df := t |} |}).
Proof.
  unfold cargar_todos_los_cafes. unfold bind at 1, get_cache. cbv beta iota.
  unfold bind at 1.
  destruct (is_fresh_run (todos_los_cafes (cache w)) w) as [b [w0 [Hf [Hc Hb]]]].
  rewrite Hf. destruct b.
  - destruct (Hb eq_refl) as [it Hit]. rewrite Hit. cbv [ret].
    exists (df it), w0. split; [reflexivity|]. exists true, w0.
    split; [reflexivity|]. split; [eauto|discriminate].
  - destruct (cargar_cada_ciudad_run (dict_keys GID_CAFES) w0) as [dfs [w1 [Hrun Hcar]]].
    cbv beta iota. unfold bind at 1. rewrite Hrun.
    cbv [bind lift_ext get_cache set_cache ret].
    destruct (time_time (ext w1)) as [t0 x]. cbn [cache ext].
    exists (concat dfs), {| cache := {| cafes_por_ciudad := cafes_por_ciudad (cache w1);
                                        todos_los_cafes := Some {| ts := t0; df := concat dfs |} |};
                            ext := x |}.
    split; [destruct dfs; reflexivity|].
    exists false, w0. split; [reflexivity|]. split; [discriminate|].
    intros _. exists dfs, w1, t0. split; [exact Hcar|].
    split; [reflexivity|]. split; [intros ->; reflexivity|reflexivity].
Qed.

(** ** The search endpoint *)

Lemma Sorted_dist_filter (f : cafe_dist -> bool) l :
  Sorted (fun a b => (DIST_KM a <= DIST_KM b)%Q) l ->
  Sorted (fun a b => (DIST_KM a <= DIST_KM b)%Q) (List.filter f l).
Proof.
  intros S. apply Sorted_StronglySorted in S;
    [|intros x y z; apply Qle_trans].
  apply StronglySorted_Sorted.
  induction S as [|a l S IH Ha]; simpl; [constructor|].
  destruct (f a); [|exact IH].
  constructor; [exact IH|].
  rewrite List.Forall_forall in *. intros x Hx.
  apply filter_In in Hx. apply Ha, Hx.
Qed.

Lemma filtrar_tostador_activo t resultado :
  t <> [] -> t <> py "Todos" ->
  filtrar_tostador (Some t) resultado = List.filter (tostador_es t) resultado.
Proof.
  intros H1 H2. unfold filtrar_tostador, pystr_eqb.
  rewrite (bool_decide_eq_false_2 _ H1), (bool_decide_eq_false_2 _ H2). reflexivity.
Qed.

Lemma tostador_es_crudo t r : tostador_es t r = true -> TOSTADOR (fila r) = Str t.
Proof.
  unfold tostador_es, pystr_eqb. destruct (TOSTADOR (fila r)) as [|s]; [discriminate|].
  intros H. apply bool_decide_eq_true_1 in H. subst s. reflexivity.
Qed.

Lemma buscar_cafes_ok payload w out w' :
  buscar_cafes payload w = (Ok out, w') ->
  exists cafes_df origen resultado,
    resultado_busqueda cafes_df origen payload = Ok resultado
    /\ out = List.map salida_busqueda resultado.
Proof.
  unfold buscar_cafes.
  destruct (dict_get (b_ciudad payload) GID_CAFES) as [gid|]; [|discriminate].
  unfold bind at 1.
  destruct (cargar_cafes (b_ciudad payload) w) as [[cafes_df|e] w1]; [|discriminate].
  unfold bind at 1.
  destruct (resolver_coordenadas _ _ cafes_df w1) as [[[[origen|] fuente]|e] w2];
    try discriminate.
  unfold bind, lift_res.
  destruct (resultado_busqueda cafes_df origen payload) as [resultado|e] eqn:E;
    [|discriminate].
  intros H. exists cafes_df, origen, resultado. split; [exact E|].
  destruct resultado; inversion H; reflexivity.
Qed.

Lemma resultado_busqueda_Ok cafes_df origen payload resultado :
  resultado_busqueda cafes_df origen payload = Ok resultado ->
  cafes_df <> []
  /\ resultado = filtrar_tostador (b_tostador payload)
                   (sort_dist_asc (filas_en_radio cafes_df origen (b_radio_km payload))).
Proof.
  unfold resultado_busqueda, cafes_en_radio.
  destruct cafes_df as [|r0 l]; [discriminate|].
  intros [= <-]. split; [discriminate|reflexivity].
Qed.

(** C10 (as amended).  The search filters by roaster after it has sorted by
    distance, and the rows it returns are sorted ascending by [DIST_KM]
    whatever the filter.  For every filter value that is neither empty nor
    "Todos" (the display text "Sin tostador cargado" among them) the rows
    kept are those whose [TOSTADOR] cell, as read from the sheet, is that
    very string, so that no row whose roaster is missing is kept.  A
    missing filter, the empty string and "Todos" apply no filter: the rows
    are all the rows within the radius, sorted. *)
Theorem filtro_tostador_crudo (payload : BuscarCafesIn) (cafes_df : list cafe)
    (origen : coords) (en_radio : list cafe_dist) :
  cafes_en_radio cafes_df origen (b_radio_km payload) = Ok en_radio ->
  (exists resultado,
     resultado_busqueda cafes_df origen payload = Ok resultado
     /\ Sorted (fun a b => (DIST_KM a <= DIST_KM b)%Q) resultado
     /\ (forall t, b_tostador payload = Some t -> t <> [] -> t <> py "Todos" ->
          resultado = List.filter (tostador_es t) (sort_dist_asc en_radio)
          /\ forall r, In r resultado ->
                       TOSTADOR (fila r) = Str t /\ TOSTADOR (fila r) <> NA)
     /\ (b_tostador payload = None \/ b_tostador payload = Some []
         \/ b_tostador payload = Some (py "Todos") ->
         resultado = sort_dist_asc en_radio))
  /\ (forall w out w',
       buscar_cafes payload w = (Ok out, w') ->
       exists cafes_df' origen' resultado,
         resultado_busqueda cafes_df' origen' payload = Ok resultado
         /\ out = List.map salida_busqueda resultado).
Proof.
  intros Hr. split; [|apply buscar_cafes_ok].
  exists (filtrar_tostador (b_tostador payload) (sort_dist_asc en_radio)).
  split; [unfold resultado_busqueda; rewrite Hr; reflexivity|].
  split; [|split].
  - unfold filtrar_tostador.
    destruct (b_tostador payload) as [t|]; [|apply sort_dist_asc_sorted].
    destruct (negb (pystr_eqb t []) && negb (pystr_eqb t (py "Todos")));
      [|apply sort_dist_asc_sorted].
    apply Sorted_dist_filter, sort_dist_asc_sorted.
  - intros t Ht H1 H2. rewrite Ht.
    rewrite (filtrar_tostador_activo t _ H1 H2). split; [reflexivity|].
    intros r Hin. apply filter_In in Hin. destruct Hin as [_ Hin].
    apply tostador_es_crudo in Hin. rewrite Hin. split; [reflexivity|discriminate].
  - intros [-> | [-> | ->]]; reflexivity.
Qed.

(** ** The recommend endpoint *)

Lemma sample1_In r0 resto w :
  exists r w', sample1 r0 resto w = (Ok r, w') /\ In r (r0 :: resto).
Proof.
  cbv [sample1 bind lift_ext ret].
  destruct (randrange (length (r0 :: resto)) (ext w)) as [k x].
  eexists _, _. split; [reflexivity|].
  apply nth_In. apply Nat.mod_upper_bound. discriminate.
Qed.

(** The outcomes of [recomendar_cafe] for a configured city whose table has
    loaded: an exception of the resolver or of the radius filter passes
    through; no coordinates is [geocode_failed]; coordinates with no row
    within 0.75 km is [no_candidates]; otherwise the answer is one of the
    rows within 0.75 km. *)
Lemma recomendar_cafe_modos payload w cafes_df w1 r w2 :
  dict_get (r_ciudad payload) GID_CAFES <> None ->
  cargar_cafes (r_ciudad payload) w = (Ok cafes_df, w1) ->
  resolver_coordenadas (r_direccion payload) (r_ciudad payload) cafes_df w1 = (r, w2) ->
  match r with
  | Raise e => recomendar_cafe payload w = (Raise e, w2)
  | Ok (None, _) => recomendar_cafe payload w = (Raise geocode_failed, w2)
  | Ok (Some origen, fuente) =>
      match cafes_en_radio cafes_df origen radio_recomendacion with
      | Raise e => recomendar_cafe payload w = (Raise e, w2)
      | Ok [] => recomendar_cafe payload w = (Raise no_candidates, w2)
      | Ok (r0 :: resto) =>
          exists elegido salida w3,
            recomendar_cafe payload w = (Ok salida, w3)
            /\ In elegido (r0 :: resto)
            /\ ro_cafe salida = salida_recomendada (r_ciudad payload) elegido
      end
  end.
Proof.
  intros Hc Hl Hr.
  assert (Hent : forall X : res RecomendarOut * World,
             (forall gid, dict_get (r_ciudad payload) GID_CAFES = Some gid ->
                recomendar_cafe payload w = X) ->
             recomendar_cafe payload w = X).
  { intros X HX. destruct (dict_get (r_ciudad payload) GID_CAFES) as [gid|] eqn:E;
      [exact (HX gid eq_refl)|congruence]. }
  destruct r as [[[origen|] fuente]|e]; cbv beta iota.
  - destruct (cafes_en_radio cafes_df origen radio_recomendacion)
      as [[|r0 resto]|e] eqn:E.
    + apply Hent. intros gid Hg. unfold recomendar_cafe. rewrite Hg.
      unfold bind, lift_res. rewrite Hl, Hr, E. reflexivity.
    + destruct (sample1_In r0 resto w2) as [elegido [w3 [Hs Hin]]].
      eexists elegido, _, w3.
      split; [apply Hent; intros gid Hg; unfold recomendar_cafe; rewrite Hg;
              unfold bind, lift_res; rewrite Hl, Hr, E, Hs; reflexivity|].
      split; [exact Hin|reflexivity].
    + apply Hent. intros gid Hg. unfold recomendar_cafe. rewrite Hg.
      unfold bind, lift_res. rewrite Hl, Hr, E. reflexivity.
  - apply Hent. intros gid Hg. unfold recomendar_cafe. rewrite Hg.
    unfold bind. rewrite Hl, Hr. reflexivity.
  - apply Hent. intros gid Hg. unfold recomendar_cafe. rewrite Hg.
    unfold bind. rewrite Hl, Hr. reflexivity.
Qed.

(** * Further properties of the code *)

(** ** Text *)

Lemma strip_fijo_lados d : strip d = d -> lstrip d = d /\ rstrip d = d.
Proof.
  intros H. split.
  - rewrite <- H at 1. unfold strip.
    rewrite (lstrip_rstrip (lstrip d) (lstrip_idem d)). exact H.
  - rewrite <- H at 1. unfold strip. rewrite rstrip_idem. exact H.
Qed.

Lemma lstrip_fijo_cabeza c s : lstrip (c :: s) = c :: s -> is_space c = false.
Proof.
  simpl. destruct (is_space c); [|reflexivity].
  intros H. exfalso. destruct (lstrip_split s) as [p [Hp _]].
  apply (f_equal (@length N)) in H. rewrite Hp in H at 2.
  simpl in H. rewrite length_app in H. lia.
Qed.

Lemma rstrip_fijo_cola p c : rstrip (p ++ [c]) = p ++ [c] -> is_space c = false.
Proof.
  unfold rstrip. rewrite rev_app_distr. simpl. intros H.
  apply (f_equal (@rev N)) in H. rewrite rev_involutive, rev_app_distr in H.
  simpl in H. exact (lstrip_fijo_cabeza c (rev p) H).
Qed.

Lemma single_spaced_doble b p q : single_spaced b (p ++ 32 :: 32 :: q) = false.
Proof.
  revert b. induction p as [|c p IH]; intros b.
  - simpl. rewrite andb_false_r. reflexivity.
  - simpl. destruct (is_space c); [rewrite IH, andb_false_r; reflexivity|apply IH].
Qed.

(** What every output of [texto_normalizado] looks like: only lower-case
    ASCII letters, digits and spaces; no space at either end; no two spaces
    in a row. *)
Theorem texto_normalizado_alfabeto (v : cell) :
  (forall c, In c (texto_normalizado v) ->
             is_lower_ascii c = true \/ is_digit_ascii c = true \/ c = 32)
  /\ (forall q, texto_normalizado v <> 32 :: q)
  /\ (forall p, texto_normalizado v <> p ++ [32])
  /\ (forall p q, texto_normalizado v <> p ++ 32 :: 32 :: q).
Proof.
  destruct (texto_normalizado_forma v) as [Hok [Hss Hst]].
  destruct (strip_fijo_lados _ Hst) as [Hl Hr].
  split; [|split; [|split]].
  - intros c Hc. rewrite List.Forall_forall in Hok. specialize (Hok c Hc).
    unfold okc in Hok. apply orb_true_iff in Hok. destruct Hok as [Hok|Hok].
    + apply orb_true_iff in Hok. tauto.
    + right. right. apply N.eqb_eq, Hok.
  - intros q E. rewrite E in Hl. apply lstrip_fijo_cabeza in Hl. discriminate.
  - intros p E. rewrite E in Hr. apply rstrip_fijo_cola in Hr. discriminate.
  - intros p q E. rewrite E, single_spaced_doble in Hss. discriminate.
Qed.

Lemma normalizar_texto_casos (v : cell) (fallback : pystr) :
  normalizar_texto v fallback = fallback
  \/ exists s, v = Str s /\ normalizar_texto v fallback = strip s
                /\ strip s <> [] /\ lower (strip s) <> py "nan".
Proof.
  destruct v as [|s]; [left; reflexivity|].
  unfold normalizar_texto, pystr_eqb. simpl.
  destruct (bool_decide (strip s = [])) eqn:E1; [left; reflexivity|].
  destruct (bool_decide (lower (strip s) = py "nan")) eqn:E2; [left; reflexivity|].
  right. exists s. apply bool_decide_eq_false_1 in E1, E2. auto.
Qed.

Lemma normalizar_texto_no_vacio (v : cell) (fallback : pystr) :
  fallback <> [] -> normalizar_texto v fallback <> [].
Proof.
  intros Hf. destruct (normalizar_texto_casos v fallback) as [->|[s [_ [-> [Hs _]]]]];
    assumption.
Qed.

(** [normalizar_texto] answers the fallback, or the stripped text of a
    present value when that text is neither empty nor "nan" in any case;
    with a non-empty fallback it never answers the empty string, and what
    it answers has no whitespace at either end when the fallback has none. *)
Theorem normalizar_texto_nunca_vacio (v : cell) (fallback : pystr) :
  (normalizar_texto v fallback = fallback
   \/ exists s, v = Str s /\ normalizar_texto v fallback = strip s
                 /\ strip s <> [] /\ lower (strip s) <> py "nan")
  /\ (fallback <> [] -> normalizar_texto v fallback <> [])
  /\ (strip fallback = fallback ->
      strip (normalizar_texto v fallback) = normalizar_texto v fallback).
Proof.
  split; [apply normalizar_texto_casos|]. split; [apply normalizar_texto_no_vacio|].
  intros Hf. destruct (normalizar_texto_casos v fallback) as [->|[s [_ [-> _]]]];
    [exact Hf|apply strip_idem].
Qed.

(** ** Tokens and the local match *)

Lemma split_aux_no_vacio cur s : cur <> [] -> split_aux cur s <> [].
Proof.
  revert cur. induction s as [|c s IH]; intros cur Hc; simpl.
  - destruct cur; [congruence|discriminate].
  - destruct (is_space c).
    + destruct cur; [congruence|discriminate].
    + apply IH. discriminate.
Qed.

Lemma split_aux_tokens cur s t :
  Forall (fun c => is_space c = false) cur ->
  In t (split_aux cur s) ->
  t <> [] /\ Forall (fun c => is_space c = false /\ In c (rev cur ++ s)) t.
Proof.
  revert cur. induction s as [|c s IH]; intros cur Hcur Ht; simpl in Ht.
  - destruct cur as [|a cur]; [destruct Ht|].
    destruct Ht as [<-|[]]. split.
    + intros E. apply (f_equal (@length N)) in E.
      rewrite length_rev in E. discriminate.
    + rewrite app_nil_r. apply List.Forall_forall. intros x Hx. split; [|exact Hx].
      rewrite List.Forall_forall in Hcur. apply Hcur, in_rev, Hx.
  - destruct (is_space c) eqn:E.
    + assert (Hrec : In t (split_aux [] s) ->
                     t <> [] /\ Forall (fun x => is_space x = false
                                                 /\ In x (rev cur ++ c :: s)) t).
      { intros H. destruct (IH [] (Forall_nil_2 _) H) as [H1 H2]. split; [exact H1|].
        eapply List.Forall_impl; [|exact H2]. simpl. intros x [Hx1 Hx2].
        split; [exact Hx1|]. apply in_or_app. right. right. exact Hx2. }
      destruct cur as [|a cur]; [exact (Hrec Ht)|].
      destruct Ht as [<-|Ht]; [|exact (Hrec Ht)]. split.
      * intros E'. apply (f_equal (@length N)) in E'.
        rewrite length_rev in E'. discriminate.
      * apply List.Forall_forall. intros x Hx. split.
        -- rewrite List.Forall_forall in Hcur. apply Hcur, in_rev, Hx.
        -- apply in_or_app. left. exact Hx.
    + assert (Hc : Forall (fun x => is_space x = false) (c :: cur))
        by (constructor; assumption).
      destruct (IH (c :: cur) Hc Ht) as [H1 H2]. split; [exact H1|].
      eapply List.Forall_impl; [|exact H2]. simpl. intros x [Hx1 Hx2].
      split; [exact Hx1|]. rewrite <- app_assoc in Hx2. exact Hx2.
Qed.

Lemma tokens_de_In dn t : In t (tokens_de dn) -> In t (split dn).
Proof.
  unfold tokens_de, py_or.
  destruct (List.filter (fun t => (3 <=? length t)%nat) (split dn)) as [|a l] eqn:E;
    [auto|].
  rewrite <- E. intros H. apply filter_In in H. apply H.
Qed.

(** The query tokens of an address whose normalized form is not empty:
    there is at least one, and each is a non-empty word of lower-case
    letters and digits taken from the normalized address. *)
Theorem tokens_de_direccion (direccion : cell) :
  texto_normalizado direccion <> [] ->
  tokens_de (texto_normalizado direccion) <> []
  /\ forall t, In t (tokens_de (texto_normalizado direccion)) ->
       t <> []
       /\ forall c, In c t ->
            In c (texto_normalizado direccion)
            /\ (is_lower_ascii c = true \/ is_digit_ascii c = true).
Proof.
  intros Hne.
  destruct (texto_normalizado_forma direccion) as [Hok [_ Hst]].
  destruct (strip_fijo_lados _ Hst) as [Hl _].
  rewrite List.Forall_forall in Hok.
  split.
  - assert (Hs : split (texto_normalizado direccion) <> []).
    { destruct (texto_normalizado direccion) as [|c s] eqn:E; [congruence|].
      unfold split. simpl. rewrite (lstrip_fijo_cabeza c s Hl).
      apply split_aux_no_vacio. discriminate. }
    unfold tokens_de, py_or.
    destruct (List.filter (fun t => (3 <=? length t)%nat)
                          (split (texto_normalizado direccion)));
      [exact Hs|discriminate].
  - intros t Ht. apply tokens_de_In in Ht.
    destruct (split_aux_tokens [] _ t (Forall_nil_2 _) Ht) as [H1 H2].
    split; [exact H1|]. intros c Hc. rewrite List.Forall_forall in H2.
    destruct (H2 c Hc) as [Hsp Hin]. simpl in Hin. split; [exact Hin|].
    specialize (Hok c Hin). unfold okc in Hok.
    apply orb_true_iff in Hok. destruct Hok as [Hok|Hok].
    + apply orb_true_iff in Hok. exact Hok.
    + apply N.eqb_eq in Hok. subst c. discriminate.
Qed.

Lemma filter_length_existsb {A} (f : A -> bool) l :
  (length (List.filter f l) <=? 0)%nat = negb (existsb f l).
Proof.
  induction l as [|a l IH]; simpl; [reflexivity|].
  destruct (f a); simpl; [reflexivity|exact IH].
Qed.

Lemma MATCH_coincide tokens r :
  (MATCH (candidato_de tokens r) <=? 0)%nat = negb (fila_coincide tokens r).
Proof. apply filter_length_existsb. Qed.

(** On a table with at least one row and an address whose normalized form is
    not empty, the local fallback finds coordinates exactly when some row's
    text contains some query token: it then answers with the coordinates of
    a row that contains one, and answers none when no row contains any. *)
Theorem geocodificar_desde_cafes_coincidencia (direccion : pystr) (cafes_df : list cafe) :
  cafes_df <> [] ->
  texto_normalizado (Str direccion) <> [] ->
  let tokens := tokens_de (texto_normalizado (Str direccion)) in
  ((exists r, In r cafes_df /\ fila_coincide tokens r = true) ->
     exists mejor, In mejor cafes_df /\ fila_coincide tokens mejor = true
                   /\ geocodificar_desde_cafes direccion cafes_df
                      = Ok (Some (LAT mejor, LONG mejor)))
  /\ ((forall r, In r cafes_df -> fila_coincide tokens r = false) ->
      geocodificar_desde_cafes direccion cafes_df = Ok None).
Proof.
  intros Hne Hd tokens.
  destruct (geocodificar_desde_cafes_mejor direccion cafes_df Hne Hd)
    as [mejor [Hin [Hmax Hr]]]. fold tokens in Hmax, Hr.
  rewrite MATCH_coincide in Hr. split.
  - intros [r [Hr1 Hr2]]. exists mejor. split; [exact Hin|].
    assert (Hm : fila_coincide tokens mejor = true).
    { specialize (Hmax r Hr1).
      destruct (fila_coincide tokens mejor) eqn:E; [reflexivity|].
      pose proof (MATCH_coincide tokens mejor) as H1. rewrite E in H1.
      pose proof (MATCH_coincide tokens r) as H2. rewrite Hr2 in H2.
      cbn [negb] in H1, H2. apply Nat.leb_le in H1. apply Nat.leb_gt in H2.
      cbv zeta in Hmax. fold tokens in Hmax. lia. }
    split; [exact Hm|]. rewrite Hr, Hm. reflexivity.
  - intros Hno. rewrite Hr, (Hno mejor Hin). reflexivity.
Qed.

Lemma resolver_casos direccion ciudad cafes_df w c t w' :
  resolver_coordenadas direccion ciudad cafes_df w = (Ok (c, t), w') ->
  (c = None /\ t = None)
  \/ exists xy, c = Some xy /\ (t = Some (py "online") \/ t = Some (py "local")).
Proof.
  destruct (geocodificar_no_lanza direccion ciudad w) as [r [w1 Hg]].
  destruct r as [xy|].
  - rewrite (resolver_online _ _ cafes_df _ _ _ Hg). intros [= <- <- <-]. eauto.
  - rewrite (resolver_local _ _ cafes_df _ _ Hg).
    destruct (geocodificar_desde_cafes direccion cafes_df) as [[xy|]|e];
      intros [= <- <- <-]; eauto.
Qed.

(** What [resolver_coordenadas] can do.  When it returns, it returns no
    coordinates and no tag, or coordinates tagged "online" or "local".
    When it raises, the exception is [IndexError], the table is empty and
    the address has a non-empty normalized form: on a table with at least
    one row it always returns. *)
Theorem resolver_coordenadas_etiquetas direccion ciudad cafes_df w r w' :
  resolver_coordenadas direccion ciudad cafes_df w = (r, w') ->
  match r with
  | Ok (c, t) =>
      (c = None /\ t = None)
      \/ exists xy, c = Some xy /\ (t = Some (py "online") \/ t = Some (py "local"))
  | Raise e =>
      e = IndexError /\ cafes_df = [] /\ texto_normalizado (Str direccion) <> []
  end.
Proof.
  intros H. destruct r as [[c t]|e]; [exact (resolver_casos _ _ _ _ _ _ _ H)|].
  destruct (geocodificar_no_lanza direccion ciudad w) as [g [w1 Hg]].
  destruct g as [xy|].
  - rewrite (resolver_online _ _ cafes_df _ _ _ Hg) in H. discriminate H.
  - rewrite (resolver_local _ _ cafes_df _ _ Hg) in H.
    destruct (decide (texto_normalizado (Str direccion) = [])) as [Ed|Ed].
    + rewrite (geocodificar_desde_cafes_sin_texto _ cafes_df Ed) in H. discriminate H.
    + destruct cafes_df as [|r0 l].
      * rewrite (geocodificar_desde_cafes_vacia _ Ed) in H.
        inversion H. auto.
      * assert (Hne : r0 :: l <> []) by discriminate.
        destruct (geocodificar_desde_cafes_mejor direccion (r0 :: l) Hne Ed)
          as [mejor [_ [_ Hr]]].
        rewrite Hr in H. destruct (_ <=? 0)%nat; discriminate H.
Qed.

(** ** The per-city cache *)

Lemma Qlt_bool_iff a b : Qlt_bool a b = true <-> (a < b)%Q.
Proof.
  unfold Qlt_bool. rewrite negb_true_iff. split.
  - intros H. apply Qnot_le_lt. intros Hle. apply Qle_bool_iff in Hle. congruence.
  - intros H. destruct (Qle_bool b a) eqn:E; [|reflexivity].
    apply Qle_bool_iff in E. exfalso. exact (Qlt_not_le _ _ H E).
Qed.

Ltac correr :=
  cbv [bind get_cache set_cache is_fresh try_except lift_io lift_ext lift_res ret raise];
  cbn [cache ext cafes_por_ciudad todos_los_cafes].

Lemma cargar_cafes_acierto ciudad gid w it ahora x :
  dict_get ciudad GID_CAFES = Some gid ->
  cafes_por_ciudad (cache w) !! ciudad = Some it ->
  time_time (ext w) = (ahora, x) ->
  (ahora - ts it < CACHE_TTL)%Q ->
  cargar_cafes ciudad w = (Ok (df it), {| cache := cache w; ext := x |}).
Proof.
  intros Hg Hl Ht Hf. apply Qlt_bool_iff in Hf.
  unfold cargar_cafes. rewrite Hg. correr. rewrite Hl, Ht. correr.
  rewrite Hf. reflexivity.
Qed.

(** A table that [cargar_cafes] has returned is the one the cache now holds
    for the city, and a further call whose clock reading is less than 600
    seconds after the entry's timestamp returns the same table, reads no
    sheet and leaves the cache as it is. *)
Theorem cargar_cafes_dos_veces ciudad w t w1 :
  cargar_cafes ciudad w = (Ok t, w1) ->
  exists it,
    cafes_por_ciudad (cache w1) !! ciudad = Some it /\ df it = t
    /\ forall ahora x,
         time_time (ext w1) = (ahora, x) ->
         (ahora - ts it < 600)%Q ->
         cargar_cafes ciudad w1 = (Ok t, {| cache := cache w1; ext := x |}).
Proof.
  intros H.
  assert (Hg : exists gid, dict_get ciudad GID_CAFES = Some gid).
  { unfold cargar_cafes in H. destruct (dict_get ciudad GID_CAFES) as [gid|];
      [eauto|discriminate H]. }
  destruct Hg as [gid Hg].
  assert (Hit : exists it, cafes_por_ciudad (cache w1) !! ciudad = Some it /\ df it = t).
  { destruct (cargar_cafes_ok ciudad w t w1 H)
      as [[it [Hit [-> Hc]]]|[filas [t0 [-> Hc]]]].
    - exists it. rewrite Hc. auto.
    - eexists. rewrite Hc. cbn [cafes_por_ciudad].
      rewrite lookup_insert_eq. split; reflexivity. }
  destruct Hit as [it [Hit Hdf]]. exists it. split; [exact Hit|]. split; [exact Hdf|].
  intros ahora x Ht Hf. rewrite <- Hdf.
  exact (cargar_cafes_acierto ciudad gid w1 it ahora x Hg Hit Ht Hf).
Qed.

(** An entry that is 600 seconds old or older is not served: the sheet is
    read again, and the cleaned rows replace the entry under a new
    timestamp. *)
Theorem cargar_cafes_vencido ciudad gid w it ahora x filas x1 t1 x2 :
  dict_get ciudad GID_CAFES = Some gid ->
  cafes_por_ciudad (cache w) !! ciudad = Some it ->
  time_time (ext w) = (ahora, x) ->
  (600 <= ahora - ts it)%Q ->
  read_csv (sheet_url gid) x = (Ok filas, x1) ->
  time_time x1 = (t1, x2) ->
  cargar_cafes ciudad w
  = (Ok (limpiar_coordenadas ciudad filas),
     {| cache := {| cafes_por_ciudad :=
                      <[ciudad := {| ts := t1; df := limpiar_coordenadas ciudad filas |}]>
                        (cafes_por_ciudad (cache w));
                    todos_los_cafes := todos_los_cafes (cache w) |};
        ext := x2 |}).
Proof.
  intros Hg Hl Ht Hv Hr Ht1.
  assert (Hf : Qlt_bool (ahora - ts it) CACHE_TTL = false).
  { destruct (Qlt_bool (ahora - ts it) CACHE_TTL) eqn:E; [|reflexivity].
    apply Qlt_bool_iff in E. exfalso. exact (Qlt_not_le _ _ E Hv). }
  unfold cargar_cafes. rewrite Hg. correr. rewrite Hl, Ht. correr.
  rewrite Hf. correr. rewrite Hr. correr. rewrite Ht1. reflexivity.
Qed.

Lemma is_fresh_falso ciudad w w0 :
  (cafes_por_ciudad (cache w) !! ciudad = None /\ w0 = w)
  \/ (exists it ahora x,
        cafes_por_ciudad (cache w) !! ciudad = Some it
        /\ time_time (ext w) = (ahora, x)
        /\ (600 <= ahora - ts it)%Q
        /\ w0 = {| cache := cache w; ext := x |}) ->
  is_fresh (cafes_por_ciudad (cache w) !! ciudad) w = (Ok false, w0)
  /\ cache w0 = cache w.
Proof.
  intros [[Hl ->]|[it [ahora [x [Hl [Ht [Hv ->]]]]]]]; rewrite Hl.
  - split; reflexivity.
  - assert (Hf : Qlt_bool (ahora - ts it) CACHE_TTL = false).
    { destruct (Qlt_bool (ahora - ts it) CACHE_TTL) eqn:E; [|reflexivity].
      apply Qlt_bool_iff in E. exfalso. exact (Qlt_not_le _ _ E Hv). }
    split; [|reflexivity]. cbv [is_fresh bind lift_ext ret].
    rewrite Ht. cbn [cache ext]. rewrite Hf. reflexivity.
Qed.

Lemma cargar_cafes_no_fresco ciudad gid w w0 :
  dict_get ciudad GID_CAFES = Some gid ->
  is_fresh (cafes_por_ciudad (cache w) !! ciudad) w = (Ok false, w0) ->
  cargar_cafes ciudad w
  = (let* filas := try_except (lift_io (read_csv (sheet_url gid)))
                              (fun _ => lift_io (read_csv (py "Cafes.csv"))) in
     let tabla := limpiar_coordenadas ciudad filas in
     let* t := lift_ext time_time in
     let* c := get_cache in
     let* _ := set_cache
                 {| cafes_por_ciudad :=
                      <[ciudad := {| ts := t; df := tabla |}]> (cafes_por_ciudad c);
                    todos_los_cafes := todos_los_cafes c |} in
     ret tabla) w0.
Proof.
  intros Hg Hf. unfold cargar_cafes. rewrite Hg.
  unfold bind at 1, get_cache. cbv beta iota. unfold bind at 1. rewrite Hf.
  reflexivity.
Qed.

(** When the sheet of the city cannot be read, the local file [Cafes.csv]
    is read in its place, whatever the city, whether nothing is cached for
    the city or the cached entry is 600 seconds old or older; its cleaned
    rows are stamped with the requested city and stored for it. *)
Theorem cargar_cafes_respaldo_local ciudad gid w w0 e x1 filas x2 t1 x3 :
  dict_get ciudad GID_CAFES = Some gid ->
  (cafes_por_ciudad (cache w) !! ciudad = None /\ w0 = w)
  \/ (exists it ahora x,
        cafes_por_ciudad (cache w) !! ciudad = Some it
        /\ time_time (ext w) = (ahora, x)
        /\ (600 <= ahora - ts it)%Q
        /\ w0 = {| cache := cache w; ext := x |}) ->
  read_csv (sheet_url gid) (ext w0) = (Raise e, x1) ->
  read_csv (py "Cafes.csv") x1 = (Ok filas, x2) ->
  time_time x2 = (t1, x3) ->
  cargar_cafes ciudad w
  = (Ok (limpiar_coordenadas ciudad filas),
     {| cache := {| cafes_por_ciudad :=
                      <[ciudad := {| ts := t1; df := limpiar_coordenadas ciudad filas |}]>
                        (cafes_por_ciudad (cache w));
                    todos_los_cafes := todos_los_cafes (cache w) |};
        ext := x3 |})
  /\ Forall (fun r => CIUDAD r = Str ciudad) (limpiar_coordenadas ciudad filas).
Proof.
  intros Hg Hcase Hr1 Hr2 Ht.
  destruct (is_fresh_falso ciudad w w0 Hcase) as [Hf Hc].
  split.
  - rewrite (cargar_cafes_no_fresco ciudad gid w w0 Hg Hf). correr.
    rewrite Hr1. correr. rewrite Hr2. correr. rewrite Ht, Hc. reflexivity.
  - apply List.Forall_forall. intros r Hr. apply limpiar_coordenadas_In in Hr.
    destruct Hr as [f [_ [-> _]]]. reflexivity.
Qed.

Lemma cargar_cafes_falla_cache ciudad w e w' :
  cargar_cafes ciudad w = (Raise e, w') -> cache w' = cache w.
Proof.
  intros H. unfold cargar_cafes in H.
  destruct (dict_get ciudad GID_CAFES) as [gid|];
    [|inversion H; reflexivity].
  unfold bind at 1, get_cache in H. cbv beta iota in H. unfold bind at 1 in H.
  destruct (is_fresh_run (cafes_por_ciudad (cache w) !! ciudad) w)
    as [b [w1 [Hf [Hc Hb]]]].
  rewrite Hf in H. destruct b.
  - destruct (Hb eq_refl) as [it Hit]. rewrite Hit in H. discriminate H.
  - cbv beta iota in H.
    cbv [bind try_except lift_io lift_ext set_cache get_cache ret] in H.
    destruct (read_csv (sheet_url gid) (ext w1)) as [[filas|e1] x1];
      cbn [ext cache] in H.
    + destruct (time_time x1) as [t0 x3]. discriminate H.
    + destruct (read_csv (py "Cafes.csv") x1) as [[filas|e2] x2];
        cbn [ext cache] in H.
      * destruct (time_time x2) as [t0 x3]. discriminate H.
      * inversion H; subst. exact Hc.
Qed.

(** A call of [cargar_cafes] that raises leaves the cache as it was: no
    failure is stored.  For a city that is not configured it does raise:
    [ValueError], with nothing read, neither clock nor sheet.  For a
    configured city with no fresh entry it raises when both the sheet and
    the local file fail, with the exception of the local file. *)
Theorem cargar_cafes_error_no_cachea ciudad w :
  (forall e w', cargar_cafes ciudad w = (Raise e, w') -> cache w' = cache w)
  /\ (dict_get ciudad GID_CAFES = None ->
      cargar_cafes ciudad w
      = (Raise (ValueError (py "Ciudad no v" ++ [225] ++ py "lida: " ++ ciudad)), w))
  /\ (forall gid w0 e1 x1 e2 x2,
       dict_get ciudad GID_CAFES = Some gid ->
       (cafes_por_ciudad (cache w) !! ciudad = None /\ w0 = w)
       \/ (exists it ahora x,
             cafes_por_ciudad (cache w) !! ciudad = Some it
             /\ time_time (ext w) = (ahora, x)
             /\ (600 <= ahora - ts it)%Q
             /\ w0 = {| cache := cache w; ext := x |}) ->
       read_csv (sheet_url gid) (ext w0) = (Raise e1, x1) ->
       read_csv (py "Cafes.csv") x1 = (Raise e2, x2) ->
       cargar_cafes ciudad w = (Raise e2, {| cache := cache w; ext := x2 |})).
Proof.
  split; [|split].
  - intros e w' H. exact (cargar_cafes_falla_cache _ _ _ _ H).
  - intros Hg. unfold cargar_cafes. rewrite Hg. reflexivity.
  - intros gid w0 e1 x1 e2 x2 Hg Hcase Hr1 Hr2.
    destruct (is_fresh_falso ciudad w w0 Hcase) as [Hf Hc].
    rewrite (cargar_cafes_no_fresco ciudad gid w w0 Hg Hf). correr.
    rewrite Hr1. correr. rewrite Hr2, Hc. reflexivity.
Qed.

(** ** Integrity of the cached tables *)

Lemma limpiar_coordenadas_fila_de ciudad filas :
  Forall (fila_de ciudad) (limpiar_coordenadas ciudad filas).
Proof.
  apply List.Forall_forall. intros r Hr. apply limpiar_coordenadas_In in Hr.
  destruct Hr as [f [_ [-> Hv]]]. split; [|reflexivity].
  apply coords_validas_con_ciudad, Hv.
Qed.

Lemma cargar_cafes_integro ciudad w r w' :
  cache_integro (cache w) ->
  cargar_cafes ciudad w = (r, w') ->
  cache_integro (cache w')
  /\ forall t, r = Ok t -> Forall (fila_de ciudad) t.
Proof.
  intros [Hciu Htod] H. destruct r as [t|e].
  - destruct (cargar_cafes_ok ciudad w t w' H)
      as [[it [Hit [-> Hc]]]|[filas [t0 [-> Hc]]]].
    + rewrite Hc. split; [split; assumption|].
      intros t [= <-]. exact (Hciu ciudad it Hit).
    + split; [|intros t [= <-]; apply limpiar_coordenadas_fila_de].
      rewrite Hc. split; cbn [cafes_por_ciudad todos_los_cafes]; [|exact Htod].
      intros k it. rewrite lookup_insert. destruct (decide (ciudad = k)) as [<-|_].
      * intros [= <-]. apply limpiar_coordenadas_fila_de.
      * apply Hciu.
  - rewrite (cargar_cafes_falla_cache _ _ _ _ H).
    split; [split; assumption|discriminate].
Qed.

Lemma cargas_integro ciudades w dfs w' :
  cargas ciudades w dfs w' ->
  (forall c, In c ciudades -> In c (dict_keys GID_CAFES)) ->
  cache_integro (cache w) ->
  Forall (Forall fila_configurada) dfs /\ cache_integro (cache w').
Proof.
  induction 1 as [w|ciudad resto w t w1 dfs w2 Hl _ IH|ciudad resto w e w1 dfs w2 Hl _ IH];
    intros Hk Hinv.
  - split; [constructor|exact Hinv].
  - destruct (cargar_cafes_integro _ _ _ _ Hinv Hl) as [Hinv1 Ht].
    destruct (IH (fun c Hc => Hk c (or_intror Hc)) Hinv1) as [Hdfs Hinv2].
    split; [|exact Hinv2]. constructor; [|exact Hdfs].
    eapply List.Forall_impl; [|exact (Ht t eq_refl)].
    intros r Hr. exists ciudad. split; [apply Hk; left; reflexivity|exact Hr].
  - destruct (cargar_cafes_integro _ _ _ _ Hinv Hl) as [Hinv1 _].
    exact (IH (fun c Hc => Hk c (or_intror Hc)) Hinv1).
Qed.

Lemma Forall_concat {A} (P : A -> Prop) (ls : list (list A)) :
  Forall (Forall P) ls -> Forall P (concat ls).
Proof.
  induction 1 as [|l ls Hl _ IH]; simpl; [constructor|].
  apply Forall_app. split; assumption.
Qed.

Lemma cargar_todos_run w :
  exists b w0,
    is_fresh (todos_los_cafes (cache w)) w = (Ok b, w0) /\ cache w0 = cache w
    /\ if b
       then exists it, todos_los_cafes (cache w) = Some it
                       /\ cargar_todos_los_cafes w = (Ok (df it), w0)
       else exists dfs w1 t0 x,
              cargas (dict_keys GID_CAFES) w0 dfs w1
              /\ time_time (ext w1) = (t0, x)
              /\ cargar_todos_los_cafes w
                 = (Ok (concat dfs),
                    {| cache := {| cafes_por_ciudad := cafes_por_ciudad (cache w1);
                                   todos_los_cafes :=
                                     Some {| ts := t0; df := concat dfs |} |};
                       ext := x |}).
Proof.
  destruct (is_fresh_run (todos_los_cafes (cache w)) w) as [b [w0 [Hf [Hc Hb]]]].
  exists b, w0. split; [exact Hf|]. split; [exact Hc|].
  destruct b.
  - destruct (Hb eq_refl) as [it Hit]. exists it. split; [exact Hit|].
    unfold cargar_todos_los_cafes. unfold bind at 1, get_cache. cbv beta iota.
    unfold bind at 1. rewrite Hf, Hit. reflexivity.
  - destruct (cargar_cada_ciudad_run (dict_keys GID_CAFES) w0) as [dfs [w1 [Hrun Hcar]]].
    destruct (time_time (ext w1)) as [t0 x] eqn:Et.
    exists dfs, w1, t0, x. split; [exact Hcar|]. split; [exact Et|].
    unfold cargar_todos_los_cafes. unfold bind at 1, get_cache. cbv beta iota.
    unfold bind at 1. rewrite Hf.
    cbv beta iota. unfold bind at 1. rewrite Hrun.
    cbv [bind lift_ext get_cache set_cache ret]. rewrite Et. cbn [cache ext].
    destruct dfs; reflexivity.
Qed.

(** From a cache whose per-city tables hold rows with valid coordinates
    stamped with their own city, and whose combined table holds rows of
    configured cities, [cargar_cafes] returns only rows with valid
    coordinates stamped with the requested city, and leaves such a cache,
    whether it returns or raises. *)
Theorem cargar_cafes_conserva_integridad ciudad w r w' :
  cache_integro (cache w) ->
  cargar_cafes ciudad w = (r, w') ->
  cache_integro (cache w')
  /\ forall t, r = Ok t ->
       Forall (fun f => coords_validas f /\ CIUDAD f = Str ciudad) t.
Proof.
  intros Hinv H. destruct (cargar_cafes_integro _ _ _ _ Hinv H) as [H1 H2].
  split; [exact H1|]. intros t Ht. exact (H2 t Ht).
Qed.

(** From such a cache [cargar_todos_los_cafes] returns a table each of whose
    rows has valid coordinates and carries the name of a configured city,
    and leaves such a cache. *)
Theorem cargar_todos_los_cafes_integro w :
  cache_integro (cache w) ->
  exists t w',
    cargar_todos_los_cafes w = (Ok t, w')
    /\ cache_integro (cache w')
    /\ Forall (fun f => coords_validas f
                        /\ exists ciudad, In ciudad (dict_keys GID_CAFES)
                                          /\ CIUDAD f = Str ciudad) t.
Proof.
  intros Hinv.
  assert (Hconf : forall t, Forall fila_configurada t ->
            Forall (fun f => coords_validas f
                             /\ exists ciudad, In ciudad (dict_keys GID_CAFES)
                                               /\ CIUDAD f = Str ciudad) t).
  { intros t Ht. eapply List.Forall_impl; [|exact Ht].
    intros f [c [Hc [Hv Hs]]]. eauto. }
  destruct (cargar_todos_run w) as [b [w0 [Hf [Hc Hb]]]]. destruct b.
  - destruct Hb as [it [Hit Hrun]]. exists (df it), w0.
    split; [exact Hrun|]. rewrite Hc. split; [exact Hinv|].
    apply Hconf. exact (proj2 Hinv it Hit).
  - destruct Hb as [dfs [w1 [t0 [x [Hcar [_ Hrun]]]]]].
    rewrite <- Hc in Hinv.
    destruct (cargas_integro _ _ _ _ Hcar (fun c Hc' => Hc') Hinv) as [Hdfs [Hciu _]].
    eexists _, _. split; [exact Hrun|]. cbn [cache].
    split; [|apply Hconf, Forall_concat, Hdfs].
    split; cbn [cafes_por_ciudad todos_los_cafes]; [exact Hciu|].
    intros it [= <-]. apply Forall_concat, Hdfs.
Qed.

(** The combined table that [cargar_todos_los_cafes] has returned is the one
    the cache now holds, and a further call whose clock reading is less
    than 600 seconds after its timestamp returns the same table and loads
    no city. *)
Theorem cargar_todos_dos_veces w t w1 :
  cargar_todos_los_cafes w = (Ok t, w1) ->
  exists it,
    todos_los_cafes (cache w1) = Some it /\ df it = t
    /\ forall ahora x,
         time_time (ext w1) = (ahora, x) ->
         (ahora - ts it < 600)%Q ->
         cargar_todos_los_cafes w1 = (Ok t, {| cache := cache w1; ext := x |}).
Proof.
  intros H.
  assert (Hit : exists it, todos_los_cafes (cache w1) = Some it /\ df it = t).
  { destruct (cargar_todos_run w) as [b [w0 [Hf [Hc Hb]]]]. destruct b.
    - destruct Hb as [it [Hit Hrun]]. rewrite Hrun in H. inversion H; subst.
      exists it. rewrite Hc. auto.
    - destruct Hb as [dfs [w2 [t0 [x [_ [_ Hrun]]]]]]. rewrite Hrun in H.
      inversion H; subst. eexists. split; reflexivity. }
  destruct Hit as [it [Hit Hdf]]. exists it. split; [exact Hit|]. split; [exact Hdf|].
  intros ahora x Ht Hlt.
  assert (Hlt' : Qlt_bool (ahora - ts it) CACHE_TTL = true)
    by (apply Qlt_bool_iff; exact Hlt).
  clear Hlt. rename Hlt' into Hlt.
  unfold cargar_todos_los_cafes. correr. rewrite Hit, Ht. correr.
  rewrite Hlt, Hdf. reflexivity.
Qed.

(** ** Cleaning and the spatial filter, as list operations *)

Lemma rango_no_nan r :
  lat_en_rango r && long_en_rango r = true ->
  negb (is_nan (LAT r)) && negb (is_nan (LONG r)) = true.
Proof.
  unfold lat_en_rango, long_en_rango.
  destruct (LAT r), (LONG r); simpl; rewrite ?andb_false_r; auto.
Qed.

(** The cleaned table is the sheet in its order, without the rows whose
    coordinates are not both in range and with the city stamped on the
    others: rows are never reordered, repeated or invented. *)
Theorem limpiar_coordenadas_orden (ciudad : pystr) (filas : list fila_csv) :
  limpiar_coordenadas ciudad filas
  = List.map (fun f => con_ciudad ciudad (coordenadas_numericas f))
      (List.filter (fun f => lat_en_rango (coordenadas_numericas f)
                             && long_en_rango (coordenadas_numericas f)) filas)
  /\ (length (limpiar_coordenadas ciudad filas) <= length filas)%nat.
Proof.
  assert (E : limpiar_coordenadas ciudad filas
              = List.map (fun f => con_ciudad ciudad (coordenadas_numericas f))
                  (List.filter (fun f => lat_en_rango (coordenadas_numericas f)
                                         && long_en_rango (coordenadas_numericas f))
                               filas)).
  { unfold limpiar_coordenadas. induction filas as [|f filas IH]; [reflexivity|].
    cbn [List.map List.filter].
    pose proof (rango_no_nan (coordenadas_numericas f)) as Hn.
    destruct (lat_en_rango (coordenadas_numericas f)) eqn:E1;
      destruct (long_en_rango (coordenadas_numericas f)) eqn:E2;
      destruct (negb (is_nan (LAT (coordenadas_numericas f)))
                && negb (is_nan (LONG (coordenadas_numericas f)))) eqn:E3;
      cbn [andb List.filter List.map]; rewrite ?E1; cbn [List.filter List.map];
      rewrite ?E2; cbn [List.map];
      try (rewrite IH; reflexivity); try exact IH.
    specialize (Hn eq_refl). discriminate Hn. }
  split; [exact E|]. rewrite E, length_map. apply filter_length_le.
Qed.

(** Widening the radius never loses a row: wherever [cafes_en_radio]
    returns, the rows within a radius are the rows within any larger radius
    that lie within the smaller one; on a table without rows it raises for
    both radii. *)
Theorem cafes_en_radio_monotono (cafes_df : list cafe) (origen : coords) (r1 r2 : Q) :
  (r1 <= r2)%Q ->
  cafes_en_radio cafes_df origen r1
  = match cafes_en_radio cafes_df origen r2 with
    | Ok filas => Ok (List.filter (fun x => Qle_bool (DIST_KM x) r1) filas)
    | Raise e => Raise e
    end
  /\ forall f1, cafes_en_radio cafes_df origen r1 = Ok f1 ->
       exists f2, cafes_en_radio cafes_df origen r2 = Ok f2
                  /\ forall x, In x f1 -> In x f2.
Proof.
  intros Hle.
  assert (E : filas_en_radio cafes_df origen r1
              = List.filter (fun x => Qle_bool (DIST_KM x) r1)
                            (filas_en_radio cafes_df origen r2)).
  { unfold filas_en_radio. induction cafes_df as [|r l IH]; [reflexivity|].
    cbn [List.map List.filter DIST_KM].
    destruct (Qle_bool (geodesic_km origen (LAT r, LONG r)) r1) eqn:E1;
      destruct (Qle_bool (geodesic_km origen (LAT r, LONG r)) r2) eqn:E2;
      cbn [List.filter DIST_KM]; rewrite ?E1; try (rewrite IH; reflexivity);
      try exact IH.
    exfalso. apply Qle_bool_iff in E1.
    assert (H2 : Qle_bool (geodesic_km origen (LAT r, LONG r)) r2 = true)
      by (apply Qle_bool_iff; eapply Qle_trans; eassumption).
    congruence. }
  unfold cafes_en_radio. destruct cafes_df as [|r0 l].
  - split; [reflexivity|discriminate].
  - split; [rewrite E; reflexivity|].
    intros f1 [= <-]. eexists. split; [reflexivity|].
    intros x Hx. rewrite E in Hx. apply filter_In in Hx. apply Hx.
Qed.

(** ** Endpoints *)

Lemma dict_get_keys (d : list (pystr * pystr)) (k : pystr) :
  In k (dict_keys d) <-> exists v, dict_get k d = Some v.
Proof.
  unfold dict_keys, pystr_eqb. induction d as [|[k' v'] d IH]; simpl.
  - split; [intros []|intros [v H]; discriminate].
  - unfold pystr_eqb. destruct (bool_decide (k = k')) eqn:E.
    + apply bool_decide_eq_true_1 in E. subst k'. split; eauto.
    + apply bool_decide_eq_false_1 in E. rewrite <- IH. split.
      * intros [H|H]; [congruence|exact H].
      * auto.
Qed.

(** The cities [GET /ciudades] lists are exactly the configured ones; for
    any other city the three endpoints that take a city answer "Ciudad
    inválida" with status 400 and touch neither cache, clock nor network. *)
Theorem ciudades_aceptadas (ciudad : pystr) :
  (In ciudad ciudades <-> exists gid, dict_get ciudad GID_CAFES = Some gid)
  /\ (~ In ciudad ciudades ->
      forall w,
        get_cafes ciudad w = (Raise ciudad_invalida, w)
        /\ (forall payload, b_ciudad payload = ciudad ->
              buscar_cafes payload w = (Raise ciudad_invalida, w))
        /\ (forall payload, r_ciudad payload = ciudad ->
              recomendar_cafe payload w = (Raise ciudad_invalida, w))).
Proof.
  split; [apply dict_get_keys|].
  intros Hn w.
  assert (E : dict_get ciudad GID_CAFES = None).
  { destruct (dict_get ciudad GID_CAFES) as [gid|] eqn:E; [|reflexivity].
    exfalso. apply Hn, dict_get_keys. eauto. }
  split; [|split].
  - unfold get_cafes. rewrite E. reflexivity.
  - intros payload <-. unfold buscar_cafes. rewrite E. reflexivity.
  - intros payload <-. unfold recomendar_cafe. rewrite E. reflexivity.
Qed.

(** The outcomes of [buscar_cafes] for a configured city.  An exception of
    the load or of the resolver passes through; no coordinates is the 404
    "No se pudo geocodificar la dirección"; with coordinates and a table
    that has rows the answer is a list, empty when no row is within the
    radius or passes the roaster filter, and never an error; with
    coordinates and a table without rows the [ValueError] of the radius
    filter passes through. *)
Theorem buscar_cafes_modos payload w r w1 :
  dict_get (b_ciudad payload) GID_CAFES <> None ->
  cargar_cafes (b_ciudad payload) w = (r, w1) ->
  match r with
  | Raise e => buscar_cafes payload w = (Raise e, w1)
  | Ok cafes_df =>
      forall r2 w2,
        resolver_coordenadas (b_direccion payload) (b_ciudad payload) cafes_df w1
        = (r2, w2) ->
        buscar_cafes payload w
        = match r2 with
          | Raise e => (Raise e, w2)
          | Ok (None, _) => (Raise geocode_failed, w2)
          | Ok (Some origen, _) =>
              match cafes_df with
              | [] => (Raise error_columna_dist, w2)
              | _ :: _ =>
                  (Ok (List.map salida_busqueda
                         (filtrar_tostador (b_tostador payload)
                            (sort_dist_asc
                               (filas_en_radio cafes_df origen
                                  (b_radio_km payload))))), w2)
              end
          end
  end.
Proof.
  intros Hc Hl. unfold buscar_cafes.
  destruct (dict_get (b_ciudad payload) GID_CAFES) as [gid|]; [|congruence].
  destruct r as [cafes_df|e].
  - intros r2 w2 Hr. unfold bind. rewrite Hl, Hr.
    destruct r2 as [[[origen|] fuente]|e]; try reflexivity.
    unfold lift_res, resultado_busqueda, cafes_en_radio.
    destruct cafes_df as [|r0 l]; [reflexivity|].
    destruct (filtrar_tostador _ _); reflexivity.
  - unfold bind. rewrite Hl. reflexivity.
Qed.

Lemma resultado_busqueda_en_radio cafes_df origen payload resultado x :
  resultado_busqueda cafes_df origen payload = Ok resultado ->
  In x resultado ->
  (DIST_KM x <= b_radio_km payload)%Q /\ In (fila x) cafes_df.
Proof.
  intros Hres H. destruct (resultado_busqueda_Ok _ _ _ _ Hres) as [_ ->].
  assert (Hs : In x (sort_dist_asc (filas_en_radio cafes_df origen (b_radio_km payload)))).
  { unfold filtrar_tostador in H.
    destruct (b_tostador payload) as [t|]; [|exact H].
    destruct (negb (pystr_eqb t []) && negb (pystr_eqb t (py "Todos"))); [|exact H].
    apply filter_In in H. apply H. }
  apply (Permutation_in _ (sort_dist_asc_perm _)) in Hs.
  unfold filas_en_radio in Hs. apply filter_In in Hs. destruct Hs as [Hm Hd].
  apply Qle_bool_iff in Hd. split; [exact Hd|].
  apply in_map_iff in Hm. destruct Hm as [r [<- Hr]]. exact Hr.
Qed.

Lemma resultado_busqueda_ordenado cafes_df origen payload resultado :
  resultado_busqueda cafes_df origen payload = Ok resultado ->
  Sorted (fun a b => (DIST_KM a <= DIST_KM b)%Q) resultado.
Proof.
  intros Hres. destruct (resultado_busqueda_Ok _ _ _ _ Hres) as [_ ->].
  unfold filtrar_tostador.
  destruct (b_tostador payload) as [t|]; [|apply sort_dist_asc_sorted].
  destruct (negb (pystr_eqb t []) && negb (pystr_eqb t (py "Todos")));
    [|apply sort_dist_asc_sorted].
  apply Sorted_dist_filter, sort_dist_asc_sorted.
Qed.

Lemma Sorted_map {A B} (R : A -> A -> Prop) (R' : B -> B -> Prop) (f : A -> B) l :
  (forall a b, R a b -> R' (f a) (f b)) ->
  Sorted R l -> Sorted R' (List.map f l).
Proof.
  intros HR. induction 1 as [|a l Hs IH Hh]; simpl; constructor; [exact IH|].
  destruct Hh; simpl; constructor. apply HR. assumption.
Qed.

(** Every record of a successful search has its distance, at most the
    radius asked for, its display distance and its map link, and non-empty
    name, location and roaster texts; the records come in ascending order
    of distance. *)
Theorem buscar_cafes_exito payload w out w' :
  buscar_cafes payload w = (Ok out, w') ->
  Forall (fun o => exists d,
            o_DIST_KM o = Some d /\ (d <= b_radio_km payload)%Q
            /\ o_DISTANCIA o = Some (distancia_corta d)
            /\ o_MAPS o = Some (maps_url (o_LAT o) (o_LONG o))
            /\ o_CAFE o <> [] /\ o_UBICACION o <> [] /\ o_TOSTADOR o <> []) out
  /\ Sorted (fun a b => exists x y, o_DIST_KM a = Some x /\ o_DIST_KM b = Some y
                                    /\ (x <= y)%Q) out.
Proof.
  intros H.
  destruct (buscar_cafes_ok payload w out w' H) as [cafes_df [origen [res [Hres ->]]]].
  split.
  - apply List.Forall_forall. intros o Ho. apply in_map_iff in Ho.
    destruct Ho as [x [<- Hx]].
    destruct (resultado_busqueda_en_radio _ _ _ _ _ Hres Hx) as [Hd _].
    exists (DIST_KM x). cbn [salida_busqueda o_DIST_KM o_DISTANCIA o_MAPS o_LAT o_LONG
                             o_CAFE o_UBICACION o_TOSTADOR].
    repeat split; try reflexivity; try exact Hd;
      apply normalizar_texto_no_vacio; discriminate.
  - eapply Sorted_map; [|exact (resultado_busqueda_ordenado _ _ _ _ Hres)].
    intros a b Hab. exists (DIST_KM a), (DIST_KM b). auto.
Qed.

(** A successful recommendation is a café of the requested, configured
    city at a distance of at most 0.75 km, and its geocoding source is
    "online" or "local", never the fallback text "desconocida". *)
Theorem recomendar_cafe_exito payload w out w' :
  recomendar_cafe payload w = (Ok out, w') ->
  In (r_ciudad payload) ciudades
  /\ o_CIUDAD (ro_cafe out) = r_ciudad payload
  /\ (exists d, o_DIST_KM (ro_cafe out) = Some d /\ (d <= 75 # 100)%Q)
  /\ (fuente_geocoding out = py "online" \/ fuente_geocoding out = py "local").
Proof.
  intros H. unfold recomendar_cafe in H.
  destruct (dict_get (r_ciudad payload) GID_CAFES) as [gid|] eqn:Eg; [|discriminate H].
  split; [apply dict_get_keys; eauto|].
  unfold bind at 1 in H.
  destruct (cargar_cafes (r_ciudad payload) w) as [[cafes_df|e] w1]; [|discriminate H].
  unfold bind at 1 in H.
  destruct (resolver_coordenadas _ _ cafes_df w1) as [[[[origen|] fuente]|e] w2] eqn:Er;
    try discriminate H.
  unfold bind at 1, lift_res in H.
  destruct (cafes_en_radio cafes_df origen radio_recomendacion)
    as [[|r0 resto]|e] eqn:Ec; try discriminate H.
  destruct (sample1_In r0 resto w2) as [elegido [w3 [Hs Hin]]].
  unfold bind in H. rewrite Hs in H. cbv [ret] in H. inversion H; subst out w3.
  cbn [ro_cafe fuente_geocoding salida_recomendada o_CIUDAD o_DIST_KM].
  split; [reflexivity|]. split.
  - exists (DIST_KM elegido). split; [reflexivity|].
    unfold cafes_en_radio in Ec. destruct cafes_df as [|c0 l]; [discriminate Ec|].
    injection Ec as Ec. rewrite <- Ec in Hin. unfold filas_en_radio in Hin.
    apply filter_In in Hin. destruct Hin as [_ Hd]. apply Qle_bool_iff in Hd. exact Hd.
  - destruct (resolver_casos _ _ _ _ _ _ _ Er) as [[Hn _]|[xy [_ [-> | ->]]]];
      [discriminate Hn|left; reflexivity|right; reflexivity].
Qed.

(** From a cache of sound tables, every record [GET /cafes] returns for a
    city carries that city, coordinates in range, non-empty name, location
    and roaster texts, and no distance fields; there is one record for
    each row of the table. *)
Theorem get_cafes_listado ciudad w out w' :
  cache_integro (cache w) ->
  get_cafes ciudad w = (Ok out, w') ->
  (exists tabla, cargar_cafes ciudad w = (Ok tabla, w') /\ length out = length tabla)
  /\ Forall (fun o =>
               o_CIUDAD o = ciudad
               /\ (exists a b, o_LAT o = Fin a /\ o_LONG o = Fin b
                               /\ (-90 <= a)%Q /\ (a <= 90)%Q
                               /\ (-180 <= b)%Q /\ (b <= 180)%Q)
               /\ o_CAFE o <> [] /\ o_UBICACION o <> [] /\ o_TOSTADOR o <> []
               /\ o_DIST_KM o = None /\ o_DISTANCIA o = None /\ o_MAPS o = None) out.
Proof.
  intros Hinv H. unfold get_cafes in H.
  destruct (dict_get ciudad GID_CAFES) as [gid|]; [|discriminate H].
  unfold bind in H.
  destruct (cargar_cafes ciudad w) as [[tabla|e] w1] eqn:El; [|discriminate H].
  cbv [ret] in H. inversion H; subst out w1. clear H.
  split; [exists tabla; split; [reflexivity|apply length_map]|].
  destruct (cargar_cafes_integro _ _ _ _ Hinv El) as [_ Ht].
  specialize (Ht tabla eq_refl). rewrite List.Forall_forall in Ht.
  apply List.Forall_forall. intros o Ho. apply in_map_iff in Ho.
  destruct Ho as [r [<- Hr]]. destruct (Ht r Hr) as [Hv Hc].
  cbn [salida_listado o_CIUDAD o_LAT o_LONG o_CAFE o_UBICACION o_TOSTADOR
       o_DIST_KM o_DISTANCIA o_MAPS].
  split; [rewrite Hc; reflexivity|]. split; [exact Hv|].
  repeat split; try reflexivity; apply normalizar_texto_no_vacio; discriminate.
Qed.

(** [GET /buscar-por-nombre] never fails: it answers with one record for
    each row of the combined table whose [CAFE] cell is exactly the name
    asked for, in the order of the table, all with the same display name,
    a map link and no distance. *)
Theorem buscar_por_nombre_resultado nombre w :
  exists tabla w',
    cargar_todos_los_cafes w = (Ok tabla, w')
    /\ buscar_por_nombre nombre w
       = (Ok (List.map salida_por_nombre (List.filter (cafe_es nombre) tabla)), w')
    /\ forall r, In r (List.filter (cafe_es nombre) tabla) ->
         CAFE r = Str nombre
         /\ o_CAFE (salida_por_nombre r) = normalizar_texto (Str nombre) sin_dato
         /\ o_DIST_KM (salida_por_nombre r) = None
         /\ o_MAPS (salida_por_nombre r) <> None.
Proof.
  assert (Hrun : exists tabla w', cargar_todos_los_cafes w = (Ok tabla, w')).
  { destruct (cargar_todos_run w) as [b [w0 [_ [_ Hb]]]]. destruct b.
    - destruct Hb as [it [_ Hrun]]. eauto.
    - destruct Hb as [dfs [w1 [t0 [x [_ [_ Hrun]]]]]]. eauto. }
  destruct Hrun as [tabla [w' Hrun]]. exists tabla, w'.
  split; [exact Hrun|]. split.
  - unfold buscar_por_nombre, bind. rewrite Hrun.
    destruct tabla as [|r0 l]; [reflexivity|].
    destruct (List.filter (cafe_es nombre) (r0 :: l)); reflexivity.
  - intros r Hr. apply filter_In in Hr. destruct Hr as [_ Hr].
    unfold cafe_es, pystr_eqb in Hr.
    destruct (CAFE r) as [|s] eqn:E; [discriminate Hr|].
    apply bool_decide_eq_true_1 in Hr. subst s.
    cbn [salida_por_nombre o_CAFE o_DIST_KM o_MAPS]. rewrite E.
    repeat split; try reflexivity; discriminate.
Qed.

(** ** Roasters *)

Lemma cargar_tostadores_acierto it e ahora x :
  time_time e = (ahora, x) ->
  (ahora - ts_t it < 600)%Q ->
  cargar_tostadores (Some it, e) = (df_t it, (Some it, x)).
Proof.
  intros Ht Hlt.
  assert (Hb : Qlt_bool (ahora - ts_t it) CACHE_TTL = true)
    by (apply Qlt_bool_iff; exact Hlt).
  unfold cargar_tostadores. cbn [fst snd]. rewrite Ht, Hb. reflexivity.
Qed.

Lemma recargar_tostadores_guarda e t s1 :
  recargar_tostadores e = (t, s1) -> exists it, fst s1 = Some it /\ df_t it = t.
Proof.
  unfold recargar_tostadores.
  destruct (read_csv_tostadores (sheet_url GID_TOSTADORES) e) as [r e1].
  destruct (time_time e1) as [t0 e2]. intros [= <- <-].
  eexists. split; reflexivity.
Qed.

(** The table [cargar_tostadores] has returned is the one the roasters'
    slot of the cache now holds, and a further call whose clock reading is
    less than 600 seconds after its timestamp returns the same table
    without reading the sheet. *)
Theorem cargar_tostadores_dos_veces s t s1 :
  cargar_tostadores s = (t, s1) ->
  exists it,
    fst s1 = Some it /\ df_t it = t
    /\ forall ahora x,
         time_time (snd s1) = (ahora, x) ->
         (ahora - ts_t it < 600)%Q ->
         cargar_tostadores s1 = (t, (Some it, x)).
Proof.
  intros H.
  assert (Hit : exists it, fst s1 = Some it /\ df_t it = t).
  { unfold cargar_tostadores in H. destruct (fst s) as [it|].
    - destruct (time_time (snd s)) as [t0 e1].
      destruct (Qlt_bool (t0 - ts_t it) CACHE_TTL).
      + inversion H; subst. exists it. split; reflexivity.
      + exact (recargar_tostadores_guarda _ _ _ H).
    - exact (recargar_tostadores_guarda _ _ _ H). }
  destruct Hit as [it [Hit Hdf]]. exists it. split; [exact Hit|]. split; [exact Hdf|].
  intros ahora x Ht Hlt. destruct s1 as [c e]. cbn [fst snd] in *. subst c.
  rewrite <- Hdf. exact (cargar_tostadores_acierto it e ahora x Ht Hlt).
Qed.

(** When the roasters' sheet cannot be read, [cargar_tostadores] answers
    the empty table and stores it: until 600 seconds have passed, further
    calls answer the empty table and do not try the sheet again. *)
Theorem cargar_tostadores_fallo_cacheado s x e1 t0 e2 :
  fst s = None ->
  read_csv_tostadores (sheet_url GID_TOSTADORES) (snd s) = (Raise x, e1) ->
  time_time e1 = (t0, e2) ->
  cargar_tostadores s = ([], (Some {| ts_t := t0; df_t := [] |}, e2))
  /\ forall ahora e3,
       time_time e2 = (ahora, e3) ->
       (ahora - t0 < 600)%Q ->
       cargar_tostadores (Some {| ts_t := t0; df_t := [] |}, e2)
       = ([], (Some {| ts_t := t0; df_t := [] |}, e3)).
Proof.
  intros Hs Hr Ht. split.
  - unfold cargar_tostadores, recargar_tostadores. rewrite Hs, Hr, Ht. reflexivity.
  - intros ahora e3 Ht2 Hlt.
    exact (cargar_tostadores_acierto {| ts_t := t0; df_t := [] |} e2 ahora e3 Ht2 Hlt).
Qed.

(** [GET /tostadores] with a city returns some of the records it returns
    without one, in the same order of the sheet; with no city or an empty
    one it returns them all; the roasters' cache ends as [cargar_tostadores]
    leaves it, also when the city is not a valid pattern and the request
    fails. *)
Theorem get_tostadores_filtro ciudad s :
  snd (get_tostadores ciudad s) = snd (cargar_tostadores s)
  /\ (ciudad = None \/ ciudad = Some [] ->
      fst (get_tostadores ciudad s)
      = Ok (List.map salida_tostador (fst (cargar_tostadores s))))
  /\ (forall out, fst (get_tostadores ciudad s) = Ok out ->
       exists filas, out = List.map salida_tostador filas
                     /\ sublist filas (fst (cargar_tostadores s))).
Proof.
  unfold get_tostadores. destruct (cargar_tostadores s) as [tabla s'].
  cbn [fst snd]. split; [|split].
  - destruct ciudad as [[|c pat]|]; try reflexivity.
    destruct (re_search_icase (c :: pat)); reflexivity.
  - intros [->| ->]; reflexivity.
  - intros out. destruct ciudad as [[|c pat]|].
    + intros [= <-]. exists tabla. split; [reflexivity|reflexivity].
    + destruct (re_search_icase (c :: pat)) as [contiene|e]; [|discriminate].
      intros [= <-]. eexists. split; [reflexivity|].
      induction tabla as [|r l IH]; simpl; [constructor|].
      destruct (contiene _); [apply sublist_skip|apply sublist_cons]; exact IH.
    + intros [= <-]. exists tabla. split; [reflexivity|reflexivity].
Qed.

End Programa.

(** * The properties on concrete inputs *)

Arguments cache {Ext} _.
Arguments ext {Ext} _.

Local Abbreviation mundo_inicial :=
  {| cache := {| cafes_por_ciudad := ∅; todos_los_cafes := None |}; ext := 0%nat |}.

Lemma ordenar_match_desc_perm l : Permutation (ordenar_match_desc l) l.
Proof. apply isort_by_perm. Qed.

Lemma ordenar_match_desc_sorted l :
  Sorted (fun a b => (MATCH b <= MATCH a)%nat) (ordenar_match_desc l).
Proof.
  apply isort_by_sorted.
  - intros a b H. apply Nat.leb_le, H.
  - intros a b H. apply Nat.leb_gt in H. lia.
Qed.

Lemma ordenar_dist_asc_perm l : Permutation (ordenar_dist_asc l) l.
Proof. apply isort_by_perm. Qed.

Lemma ordenar_dist_asc_sorted l :
  Sorted (fun a b => (DIST_KM a <= DIST_KM b)%Q) (ordenar_dist_asc l).
Proof.
  apply isort_by_sorted.
  - intros a b H. apply Qle_bool_iff, H.
  - intros a b H. apply Qlt_le_weak, Qnot_le_lt. intros Hle.
    apply Qle_bool_iff in Hle. congruence.
Qed.

Example texto_normalizado_colon :
  texto_normalizado nfkd_es lower_es (Str (py "Av. Col" ++ [243] ++ py "n 1500"))
  = py "av colon 1500".
Proof. vm_compute. reflexivity. Qed.

(** C1, a radius the claim admits and the code rejects: 1/16 km lies in
    (0, 10] and fails the validation of the request. *)
Lemma radio_bajo_rechazado :
  (0 < 1 # 16)%Q /\ (1 # 16 <= 10)%Q
  /\ validar_BuscarCafesIn (py "Rosario") (py "Mitre 100") (Some (1 # 16)) None
     = Raise RequestValidationError.
Proof.
  split; [reflexivity|]. split; [discriminate|reflexivity].
Qed.

Lemma radio_km_aceptado_witness :
  ((1 # 10 <= 1 # 2)%Q /\ (1 # 2 <= 10)%Q)
  /\ validar_BuscarCafesIn (py "Rosario") (py "Mitre 100") (Some (1 # 2)) None
     = Ok {| b_ciudad := py "Rosario"; b_direccion := py "Mitre 100";
             b_radio_km := 1 # 2; b_tostador := None |}.
Proof.
  assert (H : (1 # 10 <= 1 # 2)%Q /\ (1 # 2 <= 10)%Q) by (split; discriminate).
  split; [exact H|].
  exact (proj1 (radio_km_aceptado (py "Rosario") (py "Mitre 100") None (1 # 2)) H).
Defined.

(** C2, a string on which [texto_normalizado] is not idempotent: "nan!"
    gives "nan", and "nan" gives the empty string. *)
Lemma texto_normalizado_no_idempotente :
  texto_normalizado nfkd_es lower_es (Str (py "nan!")) = py "nan"
  /\ texto_normalizado nfkd_es lower_es (Str (py "nan")) = []
  /\ texto_normalizado nfkd_es lower_es
       (Str (texto_normalizado nfkd_es lower_es (Str (py "nan!"))))
     <> texto_normalizado nfkd_es lower_es (Str (py "nan!")).
Proof.
  split; [reflexivity|]. split; [reflexivity|]. vm_compute. discriminate.
Qed.

Lemma normalizadores_idempotentes_witness :
  texto_normalizado nfkd_es lower_es (Str (py "Av. Col" ++ [243] ++ py "n 1500"))
    <> py "nan"
  /\ texto_normalizado nfkd_es lower_es
       (Str (texto_normalizado nfkd_es lower_es
               (Str (py "Av. Col" ++ [243] ++ py "n 1500"))))
     = texto_normalizado nfkd_es lower_es (Str (py "Av. Col" ++ [243] ++ py "n 1500")).
Proof.
  assert (H : texto_normalizado nfkd_es lower_es
                (Str (py "Av. Col" ++ [243] ++ py "n 1500")) <> py "nan")
    by (vm_compute; discriminate).
  split; [exact H|].
  exact (proj1 (proj2 (normalizadores_idempotentes nfkd_es lower_es
                         (Str (py "Av. Col" ++ [243] ++ py "n 1500")))) H).
Defined.

(** C3, an address with a repeated token.  In "colon colon colon 1500 mitre"
    the row of "Colon 200" scores 3 in the code and 1 by distinct tokens,
    the row of "Mitre 1500" scores 2 either way; the code answers with the
    coordinates of the first, which is not a row of largest distinct score. *)
Lemma puntaje_cuenta_repeticiones :
  let direccion := py "colon colon colon 1500 mitre" in
  let tokens := tokens_de (texto_normalizado nfkd_es lower_es (Str direccion)) in
  let c1 := candidato_de nfkd_es lower_es tokens cafe_uno in
  let c2 := candidato_de nfkd_es lower_es tokens cafe_dos in
  MATCH c1 = 3%nat /\ MATCH c2 = 2%nat
  /\ score_distinto tokens (UBICACION_NORM c1) (CAFE_NORM c1) = 1%nat
  /\ score_distinto tokens (UBICACION_NORM c2) (CAFE_NORM c2) = 2%nat
  /\ geocodificar_desde_cafes nfkd_es lower_es ordenar_match_desc direccion tabla_demo
     = Ok (Some (LAT cafe_uno, LONG cafe_uno))
  /\ MATCH c1 <> score_distinto tokens (UBICACION_NORM c1) (CAFE_NORM c1).
Proof.
  vm_compute. repeat split; discriminate.
Qed.

Lemma geocodificar_desde_cafes_puntaje_witness :
  tabla_demo <> []
  /\ (texto_normalizado nfkd_es lower_es (Str (py "Av. Mitre 1500")) = [] ->
      geocodificar_desde_cafes nfkd_es lower_es ordenar_match_desc
        (py "Av. Mitre 1500") tabla_demo = Ok None)
  /\ geocodificar_desde_cafes nfkd_es lower_es ordenar_match_desc
       (py "Av. Mitre 1500") tabla_demo
     = Ok (Some (LAT cafe_dos, LONG cafe_dos)).
Proof.
  assert (H : tabla_demo <> []) by discriminate.
  split; [exact H|]. split; [|reflexivity].
  exact (proj1 (proj2 (proj2
    (geocodificar_desde_cafes_puntaje nfkd_es lower_es ordenar_match_desc
       ordenar_match_desc_perm ordenar_match_desc_sorted
       (py "Av. Mitre 1500") tabla_demo H)))).
Defined.

Lemma limpieza_de_coordenadas_witness :
  cache_limpio (cache mundo_inicial)
  /\ exists t w',
      cargar_cafes parse_float_demo nat reloj hoja_demo (py "Rosario") mundo_inicial
      = (Ok t, w')
      /\ t = tabla_demo
      /\ Forall coords_validas t /\ cache_limpio (cache w').
Proof.
  assert (H : cache_limpio (cache (Ext := nat) mundo_inicial)).
  { intros k it Hk. cbn in Hk. rewrite lookup_empty in Hk. discriminate. }
  split; [exact H|].
  eexists _, _. split; [lazy; reflexivity|]. split; [reflexivity|].
  exact (proj2 (proj2 (proj2
           (limpieza_de_coordenadas parse_float_demo nat reloj hoja_demo
              (py "Rosario")))) mundo_inicial _ _ H eq_refl).
Defined.

Lemma resolver_coordenadas_niveles_witness :
  forallb is_space (py "   ") = true
  /\ resolver_coordenadas nfkd_es lower_es ordenar_match_desc nat arcgis_caido
       (py "   ") (py "Rosario") tabla_demo mundo_inicial
     = (Ok (None, None), mundo_inicial).
Proof.
  split; [reflexivity|].
  exact (proj1 (resolver_coordenadas_niveles nfkd_es lower_es ordenar_match_desc
                  nat arcgis_caido)
           (py "   ") (py "Rosario") tabla_demo mundo_inicial eq_refl).
Defined.

Lemma geocodificar_desde_cafes_total_solo_no_vacia_witness :
  texto_normalizado nfkd_es lower_es (Str (py "Mitre 100")) <> []
  /\ geocodificar_desde_cafes nfkd_es lower_es ordenar_match_desc (py "Mitre 100") []
     = Raise IndexError.
Proof.
  assert (H : texto_normalizado nfkd_es lower_es (Str (py "Mitre 100")) <> [])
    by (vm_compute; discriminate).
  split; [exact H|].
  exact (proj1 (proj2
    (geocodificar_desde_cafes_total_solo_no_vacia nfkd_es lower_es
       ordenar_match_desc ordenar_match_desc_perm ordenar_match_desc_sorted
       nat arcgis_caido)) (py "Mitre 100") H).
Defined.

(** C7, the input on which the code leaves the claim.  Rosario's sheet has
    no rows, the provider is down and the address normalizes to
    "mitre 100": neither tier produces coordinates, and the request ends in
    [IndexError], not in [geocode_failed]. *)
Theorem recomendar_cafe_tabla_vacia :
  let payload := {| r_ciudad := py "Rosario"; r_direccion := py "Mitre 100" |} in
  fst (cargar_cafes parse_float_demo nat reloj hoja_vacia (py "Rosario") mundo_inicial)
    = Ok []
  /\ fst (geocodificar nat arcgis_caido (py "Mitre 100") (py "Rosario") mundo_inicial)
     = Ok None
  /\ fst (recomendar_cafe nfkd_es lower_es parse_float_demo ordenar_match_desc
            geodesic_demo sin_formato sin_formato sin_formato
            nat reloj hoja_vacia arcgis_caido primero payload mundo_inicial)
     = Raise IndexError
  /\ fst (recomendar_cafe nfkd_es lower_es parse_float_demo ordenar_match_desc
            geodesic_demo sin_formato sin_formato sin_formato
            nat reloj hoja_vacia arcgis_caido primero payload mundo_inicial)
     <> Raise geocode_failed.
Proof.
  vm_compute. repeat split; discriminate.
Qed.

Example cargar_todos_sin_red :
  fst (cargar_todos_los_cafes parse_float_demo nat reloj sin_red mundo_inicial) = Ok [].
Proof. vm_compute. reflexivity. Qed.

(** Rosario fails, the four other cities contribute their two valid rows. *)
Example cargar_todos_sin_rosario :
  match fst (cargar_todos_los_cafes parse_float_demo nat reloj red_sin_rosario
               mundo_inicial) with
  | Ok t => List.map CIUDAD t
            = [Str (py "Mar del Plata"); Str (py "Mar del Plata");
               Str (py "Buenos Aires"); Str (py "Buenos Aires");
               Str (py "La Plata"); Str (py "La Plata");
               Str (py "C" ++ [243] ++ py "rdoba"); Str (py "C" ++ [243] ++ py "rdoba")]
  | Raise _ => False
  end.
Proof. vm_compute. reflexivity. Qed.

(** C10, a filter value other than "Todos" under which a row without
    roaster is returned: the empty string.  The search around "Colon 200"
    with [tostador] empty returns both rows of the sheet within 2 km, the
    first of which has no roaster in the sheet. *)
Lemma filtro_vacio_no_filtra :
  (py "" : pystr) <> py "Todos"
  /\ TOSTADOR cafe_uno = NA
  /\ match fst (post_buscar_cafes nfkd_es lower_es parse_float_demo
                  ordenar_match_desc ordenar_dist_asc geodesic_demo
                  sin_formato sin_formato sin_formato
                  nat reloj hoja_demo arcgis_caido
                  (py "Rosario") (py "Colon 200") None (Some (py ""))
                  mundo_inicial) with
     | Ok out => List.map o_CAFE out = [py "Uno"; py "Dos"]
                 /\ List.map o_TOSTADOR out = [sin_tostador; py "Puerto Blest"]
     | Raise _ => False
     end.
Proof.
  split; [discriminate|]. split; [reflexivity|]. vm_compute. split; reflexivity.
Qed.

Lemma filtro_tostador_crudo_witness :
  let payload := {| b_ciudad := py "Rosario"; b_direccion := py "Colon 200";
                    b_radio_km := 2; b_tostador := Some (py "Puerto Blest") |} in
  let origen := (LAT cafe_uno, LONG cafe_uno) in
  cafes_en_radio geodesic_demo tabla_demo origen 2
    = Ok (filas_en_radio geodesic_demo tabla_demo origen 2)
  /\ exists resultado,
      resultado_busqueda ordenar_dist_asc geodesic_demo tabla_demo origen payload
      = Ok resultado
      /\ List.map (fun r => CAFE (fila r)) resultado = [Str (py "Dos")]
      /\ Sorted (fun a b => (DIST_KM a <= DIST_KM b)%Q) resultado.
Proof.
  intros payload origen.
  assert (H : cafes_en_radio geodesic_demo tabla_demo origen (b_radio_km payload)
              = Ok (filas_en_radio geodesic_demo tabla_demo origen 2)) by reflexivity.
  split; [exact H|].
  destruct (proj1 (filtro_tostador_crudo nfkd_es lower_es parse_float_demo
                     ordenar_match_desc ordenar_dist_asc ordenar_dist_asc_sorted
                     geodesic_demo sin_formato sin_formato sin_formato
                     nat reloj hoja_demo arcgis_caido payload tabla_demo origen
                     _ H)) as [resultado [Hres [Hs _]]].
  exists resultado. split; [exact Hres|]. split; [|exact Hs].
  vm_compute in Hres. injection Hres as <-. reflexivity.
Defined.

(** * The further properties on concrete inputs *)

Lemma cache_integro_vacio :
  cache_integro {| cafes_por_ciudad := ∅; todos_los_cafes := None |}.
Proof.
  split; cbn [cafes_por_ciudad todos_los_cafes].
  - intros k it H. rewrite lookup_empty in H. discriminate.
  - discriminate.
Qed.

Lemma tokens_de_direccion_witness :
  texto_normalizado nfkd_es lower_es (Str (py "Av. Colon 1500")) <> []
  /\ tokens_de (texto_normalizado nfkd_es lower_es (Str (py "Av. Colon 1500"))) <> [].
Proof.
  assert (H : texto_normalizado nfkd_es lower_es (Str (py "Av. Colon 1500")) <> [])
    by (vm_compute; discriminate).
  split; [exact H|].
  exact (proj1 (tokens_de_direccion nfkd_es lower_es (Str (py "Av. Colon 1500")) H)).
Defined.

Lemma geocodificar_desde_cafes_coincidencia_witness :
  (tabla_demo <> []
   /\ texto_normalizado nfkd_es lower_es (Str (py "Mitre 1500")) <> [])
  /\ exists mejor,
      In mejor tabla_demo
      /\ fila_coincide nfkd_es lower_es
           (tokens_de (texto_normalizado nfkd_es lower_es (Str (py "Mitre 1500"))))
           mejor = true
      /\ geocodificar_desde_cafes nfkd_es lower_es ordenar_match_desc
           (py "Mitre 1500") tabla_demo
         = Ok (Some (LAT mejor, LONG mejor)).
Proof.
  assert (H1 : tabla_demo <> []) by discriminate.
  assert (H2 : texto_normalizado nfkd_es lower_es (Str (py "Mitre 1500")) <> [])
    by (vm_compute; discriminate).
  split; [split; assumption|].
  apply (proj1 (geocodificar_desde_cafes_coincidencia nfkd_es lower_es
                  ordenar_match_desc ordenar_match_desc_perm
                  ordenar_match_desc_sorted (py "Mitre 1500") tabla_demo H1 H2)).
  exists cafe_dos. split; [right; left; reflexivity|vm_compute; reflexivity].
Defined.

Lemma resolver_coordenadas_etiquetas_witness :
  exists c t w',
    resolver_coordenadas nfkd_es lower_es ordenar_match_desc nat arcgis_caido
      (py "Mitre 1500") (py "Rosario") tabla_demo mundo_inicial
    = (Ok (c, t), w')
    /\ ((c = None /\ t = None)
        \/ exists xy, c = Some xy
                       /\ (t = Some (py "online") \/ t = Some (py "local"))).
Proof.
  eexists _, _, _. split; [lazy; reflexivity|].
  exact (resolver_coordenadas_etiquetas nfkd_es lower_es ordenar_match_desc
           ordenar_match_desc_perm ordenar_match_desc_sorted nat arcgis_caido
           (py "Mitre 1500") (py "Rosario") tabla_demo mundo_inicial
           (Ok (_, _)) _ eq_refl).
Defined.

Lemma cargar_cafes_dos_veces_witness :
  exists t w1,
    cargar_cafes parse_float_demo nat reloj hoja_demo (py "Rosario") mundo_inicial
    = (Ok t, w1)
    /\ exists it,
        cafes_por_ciudad (cache w1) !! py "Rosario" = Some it /\ df it = t
        /\ forall ahora x,
             reloj (ext w1) = (ahora, x) ->
             (ahora - ts it < 600)%Q ->
             cargar_cafes parse_float_demo nat reloj hoja_demo (py "Rosario") w1
             = (Ok t, {| cache := cache w1; ext := x |}).
Proof.
  eexists _, _. split; [lazy; reflexivity|].
  apply (cargar_cafes_dos_veces parse_float_demo nat reloj hoja_demo
           (py "Rosario") mundo_inicial).
  lazy; reflexivity.
Defined.

Lemma cargar_cafes_vencido_witness :
  let w := {| cache := {| cafes_por_ciudad :=
                            {[ py "Rosario" := {| ts := 0; df := [] |} ]};
                          todos_los_cafes := None |};
              ext := 600%nat |} in
  (600 <= 600 - 0)%Q
  /\ fst (cargar_cafes parse_float_demo nat reloj hoja_demo (py "Rosario") w)
     = Ok (limpiar_coordenadas parse_float_demo (py "Rosario") filas_demo).
Proof.
  intros w.
  assert (H : (600 <= 600 - 0)%Q) by discriminate.
  split; [exact H|].
  rewrite (cargar_cafes_vencido parse_float_demo nat reloj hoja_demo
             (py "Rosario") (py "1691979590") w {| ts := 0; df := [] |}
             600 601%nat filas_demo 601%nat 601 602%nat
             eq_refl eq_refl eq_refl H eq_refl eq_refl).
  reflexivity.
Defined.

Lemma cargar_cafes_respaldo_local_witness :
  let w := {| cache := {| cafes_por_ciudad :=
                            {[ py "La Plata" := {| ts := 0; df := [] |} ]};
                          todos_los_cafes := None |};
              ext := 600%nat |} in
  (600 <= 600 - 0)%Q
  /\ fst (cargar_cafes parse_float_demo nat reloj solo_local (py "La Plata") w)
     = Ok (limpiar_coordenadas parse_float_demo (py "La Plata") filas_demo)
  /\ Forall (fun r => CIUDAD r = Str (py "La Plata"))
       (limpiar_coordenadas parse_float_demo (py "La Plata") filas_demo).
Proof.
  intros w.
  assert (H : (600 <= 600 - 0)%Q) by discriminate.
  split; [exact H|].
  destruct (cargar_cafes_respaldo_local parse_float_demo nat reloj solo_local
              (py "La Plata") (py "208452991") w
              {| cache := cache w; ext := 601%nat |}
              (ExternalError 0) 601%nat filas_demo 601%nat 601 602%nat
              eq_refl
              (or_intror (ex_intro _ {| ts := 0; df := [] |}
                 (ex_intro _ 600%Q (ex_intro _ 601%nat
                    (conj eq_refl (conj eq_refl (conj H eq_refl)))))))
              eq_refl eq_refl eq_refl) as [E HF].
  split; [rewrite E; reflexivity|exact HF].
Defined.

Lemma cargar_cafes_error_no_cachea_witness :
  dict_get (py "Rosario") GID_CAFES = Some (py "1691979590")
  /\ cargar_cafes parse_float_demo nat reloj sin_red (py "Rosario") mundo_inicial
     = (Raise (ExternalError 0), {| cache := cache mundo_inicial; ext := 0%nat |}).
Proof.
  split; [reflexivity|].
  exact (proj2 (proj2 (cargar_cafes_error_no_cachea parse_float_demo nat reloj sin_red
                         (py "Rosario") mundo_inicial))
           (py "1691979590") mundo_inicial (ExternalError 0) 0%nat
           (ExternalError 0) 0%nat eq_refl
           (or_introl (conj eq_refl eq_refl)) eq_refl eq_refl).
Defined.

Lemma cargar_cafes_conserva_integridad_witness :
  cache_integro (cache mundo_inicial)
  /\ exists r w',
      cargar_cafes parse_float_demo nat reloj hoja_demo (py "Rosario") mundo_inicial
      = (r, w')
      /\ cache_integro (cache w').
Proof.
  split; [exact cache_integro_vacio|].
  eexists _, _. split; [lazy; reflexivity|].
  apply (cargar_cafes_conserva_integridad parse_float_demo nat reloj hoja_demo
           (py "Rosario") mundo_inicial (Ok tabla_demo) _ cache_integro_vacio).
  lazy; reflexivity.
Defined.

Lemma cargar_todos_los_cafes_integro_witness :
  cache_integro (cache mundo_inicial)
  /\ exists t w',
      cargar_todos_los_cafes parse_float_demo nat reloj red_sin_rosario mundo_inicial
      = (Ok t, w')
      /\ cache_integro (cache w')
      /\ Forall (fun f => coords_validas f
                          /\ exists ciudad, In ciudad (dict_keys GID_CAFES)
                                            /\ CIUDAD f = Str ciudad) t.
Proof.
  split; [exact cache_integro_vacio|].
  exact (cargar_todos_los_cafes_integro parse_float_demo nat reloj red_sin_rosario
           mundo_inicial cache_integro_vacio).
Defined.

Lemma cargar_todos_dos_veces_witness :
  exists t w1,
    cargar_todos_los_cafes parse_float_demo nat reloj sin_red mundo_inicial = (Ok t, w1)
    /\ exists it,
        todos_los_cafes (cache w1) = Some it /\ df it = t
        /\ forall ahora x,
             reloj (ext w1) = (ahora, x) ->
             (ahora - ts it < 600)%Q ->
             cargar_todos_los_cafes parse_float_demo nat reloj sin_red w1
             = (Ok t, {| cache := cache w1; ext := x |}).
Proof.
  eexists _, _. split; [lazy; reflexivity|].
  apply (cargar_todos_dos_veces parse_float_demo nat reloj sin_red mundo_inicial).
  lazy; reflexivity.
Defined.

Lemma cafes_en_radio_monotono_witness :
  (1 <= 2)%Q
  /\ cafes_en_radio geodesic_demo tabla_demo (LAT cafe_uno, LONG cafe_uno) 1
     = match cafes_en_radio geodesic_demo tabla_demo (LAT cafe_uno, LONG cafe_uno) 2 with
       | Ok filas => Ok (List.filter (fun x => Qle_bool (DIST_KM x) 1) filas)
       | Raise e => Raise e
       end.
Proof.
  assert (H : (1 <= 2)%Q) by discriminate.
  split; [exact H|].
  exact (proj1 (cafes_en_radio_monotono geodesic_demo tabla_demo
                  (LAT cafe_uno, LONG cafe_uno) 1 2 H)).
Defined.

(** Runs a computation on a concrete world and names its two results. *)
Ltac evaluar X k :=
  let r := eval vm_compute in X in
  match r with
  | (?a, ?b) =>
      let E := fresh "E" in
      assert (E : X = (a, b)) by (vm_compute; reflexivity);
      k a b E
  end.

Lemma buscar_cafes_modos_witness :
  let payload := {| b_ciudad := py "Rosario"; b_direccion := py "Mitre 1500";
                    b_radio_km := 2; b_tostador := None |} in
  dict_get (py "Rosario") GID_CAFES <> None
  /\ buscar_cafes nfkd_es lower_es parse_float_demo ordenar_match_desc
       ordenar_dist_asc geodesic_demo sin_formato sin_formato sin_formato
       nat reloj sin_red arcgis_caido payload mundo_inicial
     = (Raise (ExternalError 0), mundo_inicial).
Proof.
  intros payload.
  assert (H : dict_get (py "Rosario") GID_CAFES <> None) by (vm_compute; discriminate).
  split; [exact H|].
  assert (E : cargar_cafes parse_float_demo nat reloj sin_red (py "Rosario") mundo_inicial
              = (Raise (ExternalError 0), mundo_inicial)) by (vm_compute; reflexivity).
  exact (buscar_cafes_modos nfkd_es lower_es parse_float_demo ordenar_match_desc
           ordenar_dist_asc geodesic_demo sin_formato sin_formato sin_formato
           nat reloj sin_red arcgis_caido payload mundo_inicial
           (Raise (ExternalError 0)) mundo_inicial H E).
Defined.

Lemma buscar_cafes_exito_witness :
  let payload := {| b_ciudad := py "Rosario"; b_direccion := py "Colon 200";
                    b_radio_km := 2; b_tostador := None |} in
  exists out w',
    buscar_cafes nfkd_es lower_es parse_float_demo ordenar_match_desc
      ordenar_dist_asc geodesic_demo sin_formato sin_formato sin_formato
      nat reloj hoja_demo arcgis_caido payload mundo_inicial
    = (Ok out, w')
    /\ length out = 2%nat
    /\ Sorted (fun a b => exists x y, o_DIST_KM a = Some x /\ o_DIST_KM b = Some y
                                      /\ (x <= y)%Q) out.
Proof.
  intros payload.
  evaluar (buscar_cafes nfkd_es lower_es parse_float_demo ordenar_match_desc
             ordenar_dist_asc geodesic_demo sin_formato sin_formato sin_formato
             nat reloj hoja_demo arcgis_caido payload mundo_inicial)
    ltac:(fun a b E =>
            match a with
            | Ok ?out =>
                exists out, b; split; [exact E|]; split; [reflexivity|];
                exact (proj2 (buscar_cafes_exito nfkd_es lower_es parse_float_demo
                                ordenar_match_desc ordenar_dist_asc
                                ordenar_dist_asc_perm ordenar_dist_asc_sorted
                                geodesic_demo sin_formato sin_formato sin_formato
                                nat reloj hoja_demo arcgis_caido payload
                                mundo_inicial out b E))
            end).
Defined.

Lemma recomendar_cafe_exito_witness :
  let payload := {| r_ciudad := py "Rosario"; r_direccion := py "Colon 200" |} in
  exists out w',
    recomendar_cafe nfkd_es lower_es parse_float_demo ordenar_match_desc
      geodesic_demo sin_formato sin_formato sin_formato
      nat reloj hoja_demo arcgis_caido primero payload mundo_inicial
    = (Ok out, w')
    /\ o_CAFE (ro_cafe out) = py "Uno"
    /\ (fuente_geocoding out = py "online" \/ fuente_geocoding out = py "local").
Proof.
  intros payload.
  evaluar (recomendar_cafe nfkd_es lower_es parse_float_demo ordenar_match_desc
             geodesic_demo sin_formato sin_formato sin_formato
             nat reloj hoja_demo arcgis_caido primero payload mundo_inicial)
    ltac:(fun a b E =>
            match a with
            | Ok ?out =>
                exists out, b; split; [exact E|]; split; [reflexivity|];
                exact (proj2 (proj2 (proj2
                         (recomendar_cafe_exito nfkd_es lower_es parse_float_demo
                            ordenar_match_desc geodesic_demo
                            sin_formato sin_formato sin_formato
                            nat reloj hoja_demo arcgis_caido primero payload
                            mundo_inicial out b E))))
            end).
Defined.

Lemma get_cafes_listado_witness :
  cache_integro (cache mundo_inicial)
  /\ exists out w',
      get_cafes lower_es parse_float_demo nat reloj hoja_demo (py "Rosario")
        mundo_inicial
      = (Ok out, w')
      /\ exists tabla,
          cargar_cafes parse_float_demo nat reloj hoja_demo (py "Rosario")
            mundo_inicial = (Ok tabla, w')
          /\ length out = length tabla.
Proof.
  split; [exact cache_integro_vacio|].
  evaluar (get_cafes lower_es parse_float_demo nat reloj hoja_demo (py "Rosario")
             mundo_inicial)
    ltac:(fun a b E =>
            match a with
            | Ok ?out =>
                exists out, b; split; [exact E|];
                exact (proj1 (get_cafes_listado lower_es parse_float_demo nat reloj
                                hoja_demo (py "Rosario") mundo_inicial out b
                                cache_integro_vacio E))
            end).
Defined.

Lemma cargar_tostadores_dos_veces_witness :
  exists t s1,
    cargar_tostadores nat reloj tostadores_caido (None, 0%nat) = (t, s1)
    /\ exists it,
        fst s1 = Some it /\ df_t it = t
        /\ forall ahora x,
             reloj (snd s1) = (ahora, x) ->
             (ahora - ts_t it < 600)%Q ->
             cargar_tostadores nat reloj tostadores_caido s1 = (t, (Some it, x)).
Proof.
  evaluar (cargar_tostadores nat reloj tostadores_caido (None, 0%nat))
    ltac:(fun a b E =>
            exists a, b; split; [exact E|];
            exact (cargar_tostadores_dos_veces nat reloj tostadores_caido
                     (None, 0%nat) a b E)).
Defined.

Lemma cargar_tostadores_fallo_cacheado_witness :
  tostadores_caido (sheet_url GID_TOSTADORES) 0%nat = (Raise (ExternalError 2), 0%nat)
  /\ cargar_tostadores nat reloj tostadores_caido (None, 0%nat)
     = ([], (Some {| ts_t := 0; df_t := [] |}, 1%nat)).
Proof.
  split; [reflexivity|].
  exact (proj1 (cargar_tostadores_fallo_cacheado nat reloj tostadores_caido
                  (None, 0%nat) (ExternalError 2) 0%nat 0 1%nat
                  eq_refl eq_refl eq_refl)).
Defined.

Example get_tostadores_patron_invalido :
  fst (get_tostadores nat reloj tostadores_caido sin_patron (Some (py "(")) (None, 0%nat))
  = Raise (ExternalError 3).
Proof. reflexivity. Qed.

(** With a sheet that has no rows and a provider that finds the address,
    the radius filter raises and both endpoints pass its [ValueError] on. *)
Example tabla_vacia_con_coordenadas :
  fst (buscar_cafes nfkd_es lower_es parse_float_demo ordenar_match_desc
         ordenar_dist_asc geodesic_demo sin_formato sin_formato sin_formato
         nat reloj hoja_vacia arcgis_centro
         {| b_ciudad := py "Rosario"; b_direccion := py "Mitre 100";
            b_radio_km := 2; b_tostador := None |} mundo_inicial)
    = Raise error_columna_dist
  /\ fst (recomendar_cafe nfkd_es lower_es parse_float_demo ordenar_match_desc
            geodesic_demo sin_formato sin_formato sin_formato
            nat reloj hoja_vacia arcgis_centro primero
            {| r_ciudad := py "Rosario"; r_direccion := py "Mitre 100" |}
            mundo_inicial)
     = Raise error_columna_dist.
Proof. vm_compute. split; reflexivity. Qed.
